(** * new-api relay engine: quota ledger, sensitive filter, Azure URLs,
      stream handler and retry routing

    A shallow embedding of the relay engine of new-api
    (relay/relay-text.go, relay/channel/openai/adaptor.go and its stream
    handler, service/sensitive.go, controller/relay.go) together with the
    properties its specification states about it.

    Conventions.
    - Go [int] is the 64-bit two's complement integer of the amd64 build:
      a [Z] in range, every arithmetic operation wrapped by [GoInt.wrap].
    - Go [float64] is IEEE 754 binary64, [spec_float] with precision 53 and
      maximal exponent 1024.
    - Go [string] is a byte string, [string] here.  The text helpers that
      work on runes ([ToLower], the pattern search) are modelled on ASCII
      text, where a rune is a byte.
    - Packages of the repository whose sources are not part of the relay
      engine ([model], [service], [common]) appear as interfaces (type
      classes); the quota store additionally has an instance written from
      the specification.
    - Log lines ([common.LogInfo], [common.LogError], [common.SysError])
      are not part of the state. *)

From Stdlib Require Import ZArith String Ascii List Bool Lia DecimalString.
From Stdlib Require Import DecimalZ QArith Qround.
From Stdlib Require Import Floats.SpecFloat.
From stdpp Require Import base option gmap strings.

Local Open Scope string_scope.
Local Open Scope Z_scope.

(** ** Go integers *)

Module GoInt.

Definition min_int : Z := - 2 ^ 63.
Definition max_int : Z := 2 ^ 63 - 1.

Definition in_int (z : Z) : Prop := min_int <= z <= max_int.

(** Two's complement wrap-around of a mathematical integer. *)
Definition wrap (z : Z) : Z := (z + 2 ^ 63) mod 2 ^ 64 - 2 ^ 63.

Definition add (a b : Z) : Z := wrap (a + b).
Definition sub (a b : Z) : Z := wrap (a - b).
Definition mul (a b : Z) : Z := wrap (a * b).
Definition neg (a : Z) : Z := wrap (- a).

End GoInt.

(** ** Go float64 *)

Module GoFloat.

Definition prec : Z := 53.
Definition emax : Z := 1024.

Definition float64 : Type := spec_float.

Definition zero : float64 := S754_zero false.

Definition mul (x y : float64) : float64 := SFmul prec emax x y.

(** [x == y] on float64: false as soon as one side is NaN. *)
Definition eqb (x y : float64) : bool := SFeqb x y.

(** The binary64 nearest to m * 2^e (ties to even). *)
Definition of_scaled (m e : Z) : float64 := binary_normalize prec emax m e false.

(** The conversion [float64(n)] of a Go int. *)
Definition of_int (n : Z) : float64 := of_scaled n 0.

(** The integer part of a finite float, toward zero. *)
Definition trunc (x : float64) : option Z :=
  match x with
  | S754_zero _ => Some 0
  | S754_finite s m e =>
      let a := if 0 <=? e then Zpos m * 2 ^ e else Zpos m / 2 ^ (- e) in
      Some (if s then - a else a)
  | S754_infinity _ | S754_nan => None
  end.

(** The conversion [int(x)].  Go leaves the result open when the value is
    not representable; the amd64 build yields the minimal integer. *)
Definition to_int (x : float64) : Z :=
  match trunc x with
  | Some z =>
      if (GoInt.min_int <=? z) && (z <=? GoInt.max_int) then z
      else GoInt.min_int
  | None => GoInt.min_int
  end.

End GoFloat.

(** ** HTTP status codes of net/http used by the relay *)

Definition StatusTemporaryRedirect : Z := 307.
Definition StatusBadRequest : Z := 400.
Definition StatusForbidden : Z := 403.
Definition StatusTooManyRequests : Z := 429.
Definition StatusInternalServerError : Z := 500.

(** ** dto: errors *)

Record OpenAIError := {
  Message : string;
  Type_ : string;
  Param : string;
  Code : string
}.

Record OpenAIErrorWithStatusCode := {
  Error : OpenAIError;
  StatusCode : Z
}.

(** [service.OpenAIErrorWrapper err code statusCode]; its first argument is
    the text of the Go error. *)
Class ServicePkg := {
  OpenAIErrorWrapper : string -> string -> Z -> OpenAIErrorWithStatusCode
}.

(** ** gin context keys *)

Inductive GinValue :=
| VInt (n : Z)
| VString (s : string)
| VBool (b : bool).

(** The parts of a [*gin.Context] the relay reads: the keys set by the
    middleware, the URL path parameters, the query string and the path of
    the request URL. *)
Record GinContext := {
  Keys : gmap string GinValue;
  Params : gmap string string;
  QueryArgs : gmap string (list string);
  URLPath : string
}.

(** [c.Param] ([Param] is the field of [OpenAIError]): the empty string when the route has no such parameter. *)
Definition ctxParam (c : GinContext) (key : string) : string :=
  match Params c !! key with Some v => v | None => "" end.

(** [c.Query]: the first value of the key, the empty string without one. *)
Definition ctxQuery (c : GinContext) (key : string) : string :=
  match QueryArgs c !! key with Some (v :: _) => v | _ => "" end.

(** [c.GetInt], [c.GetString], [c.GetBool]: the zero value when the key is
    absent or holds another type. *)
Definition GetInt (c : GinContext) (key : string) : Z :=
  match Keys c !! key with Some (VInt n) => n | _ => 0 end.

Definition GetString (c : GinContext) (key : string) : string :=
  match Keys c !! key with Some (VString s) => s | _ => "" end.

Definition GetBool (c : GinContext) (key : string) : bool :=
  match Keys c !! key with Some (VBool b) => b | _ => false end.

(** ** relaycommon.RelayInfo: the fields the relay engine reads *)

Inductive RelayMode :=
| RelayModeUnknown
| RelayModeChatCompletions
| RelayModeCompletions
| RelayModeEmbeddings
| RelayModeModerations
| RelayModeImagesGenerations
| RelayModeEdits
| RelayModeAudioSpeech
| RelayModeAudioTranscription
| RelayModeAudioTranslation.

Record RelayInfo := {
  ChannelType : Z;
  ChannelId : Z;
  TokenId : Z;
  UserId : Z;
  Group : string;
  TokenUnlimited : bool;
  StartTime : Z;
  ApiType : Z;
  IsStream : bool;
  Mode : RelayMode;
  UpstreamModelName : string;
  RequestURLPath : string;
  ApiVersion : string;
  PromptTokens : Z;
  ApiKey : string;
  Organization : string;
  BaseUrl : string
}.

(** The arguments of [model.RecordConsumeLog], in its order. *)
Record ConsumeLogEntry := {
  log_userId : Z;
  log_channelId : Z;
  log_promptTokens : Z;
  log_completionTokens : Z;
  log_modelName : string;
  log_tokenName : string;
  log_quota : Z;
  log_content : string;
  log_tokenId : Z;
  log_userQuota : Z;
  log_useTimeSeconds : Z;
  log_isStream : bool
}.

(** ** The quota store (package model) as an interface

    A Go function returning [error] becomes a function returning the new
    store and [Some msg] on failure; one returning [(int, error)] returns
    [inl msg] or [inr n]. *)

Class LedgerStore (St : Type) := {
  CacheGetUserQuota : Z -> St -> string + Z;
  CacheDecreaseUserQuota : Z -> Z -> St -> St * option string;
  PreConsumeTokenQuota : Z -> Z -> St -> St * (string + Z);
  PostConsumeTokenQuota : Z -> Z -> Z -> Z -> bool -> St -> St * option string;
  CacheUpdateUserQuota : Z -> St -> St * option string;
  UpdateUserUsedQuotaAndRequestCount : Z -> Z -> St -> St;
  UpdateChannelUsedQuota : Z -> Z -> St -> St;
  RecordConsumeLog : ConsumeLogEntry -> St -> St
}.

(** ** relay-text.go: preConsumeQuota *)

Section PreConsume.
Context `{ServicePkg} {St : Type} `{LedgerStore St}.

(** The trust test of preConsumeQuota: the amount that is reserved against
    the credential after the account balance [userQuota] was read. *)
Definition trustedAmount (c : GinContext) (relayInfo : RelayInfo)
    (userQuota preConsumedQuota : Z) : Z :=
  if userQuota >? GoInt.mul 100 preConsumedQuota then
    if negb (TokenUnlimited relayInfo) then
      let tokenQuota := GetInt c "token_quota" in
      if tokenQuota >? GoInt.mul 100 preConsumedQuota then 0
      else preConsumedQuota
    else 0
  else preConsumedQuota.

(** Returns the store after the call and either the error or the pair
    (reserved amount, account quota). *)
Definition preConsumeQuota (c : GinContext) (preConsumedQuota : Z)
    (relayInfo : RelayInfo) (s : St)
    : St * (OpenAIErrorWithStatusCode + Z * Z) :=
  match CacheGetUserQuota (UserId relayInfo) s with
  | inl err =>
      (s, inl (OpenAIErrorWrapper err "get_user_quota_failed"
                 StatusInternalServerError))
  | inr userQuota =>
      if (userQuota <=? 0) || (GoInt.sub userQuota preConsumedQuota <? 0)
      then
        (s, inl (OpenAIErrorWrapper "user quota is not enough"
                   "insufficient_user_quota" StatusForbidden))
      else
        match CacheDecreaseUserQuota (UserId relayInfo) preConsumedQuota s with
        | (s1, Some err) =>
            (s1, inl (OpenAIErrorWrapper err "decrease_user_quota_failed"
                        StatusInternalServerError))
        | (s1, None) =>
            let preConsumedQuota' :=
              trustedAmount c relayInfo userQuota preConsumedQuota in
            if preConsumedQuota' >? 0 then
              match PreConsumeTokenQuota (TokenId relayInfo)
                      preConsumedQuota' s1 with
              | (s2, inl err) =>
                  (s2, inl (OpenAIErrorWrapper err
                              "pre_consume_token_quota_failed"
                              StatusForbidden))
              | (s2, inr userQuota') =>
                  (s2, inr (preConsumedQuota', userQuota'))
              end
            else (s1, inr (preConsumedQuota', userQuota))
        end
  end.

End PreConsume.


(** ** dto: requests and usage *)

(** A value of Go type [any] as the validation compares it: only a string
    can equal the empty string. *)
Inductive GoAny :=
| AnyNil
| AnyString (s : string)
| AnyOther.

Definition any_is_empty_string (v : GoAny) : bool :=
  match v with AnyString s => String.eqb s "" | _ => false end.

(** [dto.Message]; the name [Message] is the field of [OpenAIError]. *)
Record dtoMessage := {
  Role : string;
  Content : string
}.

Record GeneralOpenAIRequest := {
  Model : string;
  Messages : list dtoMessage;
  Prompt : GoAny;
  Stream : bool;
  MaxTokens : Z;
  Input : GoAny;
  Instruction : string
}.

Record Usage := {
  UsagePromptTokens : Z;
  UsageCompletionTokens : Z;
  UsageTotalTokens : Z
}.

Record SensitiveResponse := {
  SensitiveWords : list string
}.

(** ** Package common and fmt: what the settlement reads *)

Class CommonPkg := {
  QuotaPerUnit : GoFloat.float64;
  GetCompletionRatio : string -> GoFloat.float64;
  (** the rendering of a float64 by the verb [%.2f] *)
  fmt_2f : GoFloat.float64 -> string
}.

(** ** relay-text.go: postConsumeQuota *)

Section PostConsume.
Context `{CommonPkg} {St : Type} `{LedgerStore St}.

Definition minus_one : GoFloat.float64 := GoFloat.of_int (-1).

(** The local [quota] after the pricing branch (lines 347 to 357). *)
Definition pricedQuota (model : string) (promptTokens completionTokens : Z)
    (ratio groupRatio modelPrice : GoFloat.float64) : Z :=
  if GoFloat.eqb modelPrice minus_one then
    let completionRatio := GetCompletionRatio model in
    let quota :=
      GoInt.add promptTokens
        (GoFloat.to_int
           (GoFloat.mul (GoFloat.of_int completionTokens) completionRatio)) in
    let quota := GoFloat.to_int (GoFloat.mul (GoFloat.of_int quota) ratio) in
    if negb (GoFloat.eqb ratio GoFloat.zero) && (quota <=? 0) then 1
    else quota
  else
    GoFloat.to_int
      (GoFloat.mul (GoFloat.mul modelPrice QuotaPerUnit) groupRatio).

(** The [quota] that is charged and logged: forced to 0 without tokens. *)
Definition chargedQuota (model : string) (usage : Usage)
    (ratio groupRatio modelPrice : GoFloat.float64) : Z :=
  let promptTokens := UsagePromptTokens usage in
  let completionTokens := UsageCompletionTokens usage in
  let totalTokens := GoInt.add promptTokens completionTokens in
  if totalTokens =? 0 then 0
  else pricedQuota model promptTokens completionTokens ratio groupRatio
         modelPrice.

Definition logContentOf (model : string) (totalTokens : Z)
    (modelRatio groupRatio modelPrice : GoFloat.float64)
    (sensitiveResp : option SensitiveResponse) : string :=
  let logContent :=
    if GoFloat.eqb modelPrice minus_one then
      "模型倍率 " +:+ fmt_2f modelRatio +:+ "，分组倍率 " +:+ fmt_2f groupRatio
    else
      "模型价格 " +:+ fmt_2f modelPrice +:+ "，分组倍率 " +:+ fmt_2f groupRatio in
  let logContent :=
    if totalTokens =? 0 then logContent +:+ "（可能是上游超时）"
    else
      match sensitiveResp with
      | Some r =>
          logContent +:+ "，敏感词：" +:+ String.concat ", " (SensitiveWords r)
      | None => logContent
      end in
  if String.prefix "gpt-4-gizmo" model then logContent +:+ "，模型 " +:+ model
  else logContent.

(** [now] is the Unix time read by [time.Now()].  The errors of the two
    store calls are only logged, the store they leave is kept. *)
Definition postConsumeQuota (ctx : GinContext) (relayInfo : RelayInfo)
    (textRequest : GeneralOpenAIRequest) (usage : Usage)
    (ratio : GoFloat.float64) (preConsumedQuota userQuota : Z)
    (modelRatio groupRatio modelPrice : GoFloat.float64)
    (sensitiveResp : option SensitiveResponse) (now : Z) (s : St) : St :=
  let useTimeSeconds := GoInt.sub now (StartTime relayInfo) in
  let promptTokens := UsagePromptTokens usage in
  let completionTokens := UsageCompletionTokens usage in
  let tokenName := GetString ctx "token_name" in
  let quota :=
    pricedQuota (Model textRequest) promptTokens completionTokens ratio
      groupRatio modelPrice in
  let totalTokens := GoInt.add promptTokens completionTokens in
  let logContent :=
    logContentOf (Model textRequest) totalTokens modelRatio groupRatio
      modelPrice sensitiveResp in
  let '(quota, s) :=
    if totalTokens =? 0 then (0, s)
    else
      let quotaDelta := GoInt.sub quota preConsumedQuota in
      let s := fst (PostConsumeTokenQuota (TokenId relayInfo) userQuota
                      quotaDelta preConsumedQuota true s) in
      let s := fst (CacheUpdateUserQuota (UserId relayInfo) s) in
      let s := UpdateUserUsedQuotaAndRequestCount (UserId relayInfo) quota s in
      let s := UpdateChannelUsedQuota (ChannelId relayInfo) quota s in
      (quota, s) in
  let logModel :=
    if String.prefix "gpt-4-gizmo" (Model textRequest) then "gpt-4-gizmo-*"
    else Model textRequest in
  RecordConsumeLog
    {| log_userId := UserId relayInfo;
       log_channelId := ChannelId relayInfo;
       log_promptTokens := promptTokens;
       log_completionTokens := completionTokens;
       log_modelName := logModel;
       log_tokenName := tokenName;
       log_quota := quota;
       log_content := logContent;
       log_tokenId := TokenId relayInfo;
       log_userQuota := userQuota;
       log_useTimeSeconds := useTimeSeconds;
       log_isStream := IsStream relayInfo |} s.

(** returnPreConsumedQuota: the body of the goroutine it starts, run at
    once. *)
Definition returnPreConsumedQuota (tokenId userQuota preConsumedQuota : Z)
    (s : St) : St :=
  if negb (preConsumedQuota =? 0) then
    fst (PostConsumeTokenQuota tokenId userQuota
           (GoInt.neg preConsumedQuota) 0 false s)
  else s.

End PostConsume.


(** ** relay-text.go: getAndValidateTextRequest *)

Definition MaxInt32 : Z := 2147483647.

Definition setStream (relayInfo : RelayInfo) (b : bool) : RelayInfo :=
  {| ChannelType := ChannelType relayInfo;
     ChannelId := ChannelId relayInfo;
     TokenId := TokenId relayInfo;
     UserId := UserId relayInfo;
     Group := Group relayInfo;
     TokenUnlimited := TokenUnlimited relayInfo;
     StartTime := StartTime relayInfo;
     ApiType := ApiType relayInfo;
     IsStream := b;
     Mode := Mode relayInfo;
     UpstreamModelName := UpstreamModelName relayInfo;
     RequestURLPath := RequestURLPath relayInfo;
     ApiVersion := ApiVersion relayInfo;
     PromptTokens := PromptTokens relayInfo;
     ApiKey := ApiKey relayInfo;
     Organization := Organization relayInfo;
     BaseUrl := BaseUrl relayInfo |}.

Definition setModel (r : GeneralOpenAIRequest) (m : string)
    : GeneralOpenAIRequest :=
  {| Model := m;
     Messages := Messages r;
     Prompt := Prompt r;
     Stream := Stream r;
     MaxTokens := MaxTokens r;
     Input := Input r;
     Instruction := Instruction r |}.

(** The defaulting of the model (lines 38 to 43). *)
Definition defaultModel (c : GinContext) (relayInfo : RelayInfo)
    (textRequest : GeneralOpenAIRequest) : GeneralOpenAIRequest :=
  let textRequest :=
    match Mode relayInfo with
    | RelayModeModerations =>
        if String.eqb (Model textRequest) "" then
          setModel textRequest "text-moderation-latest"
        else textRequest
    | _ => textRequest
    end in
  match Mode relayInfo with
  | RelayModeEmbeddings =>
      if String.eqb (Model textRequest) "" then
        setModel textRequest (ctxParam c "model")
      else textRequest
  | _ => textRequest
  end.

(** The check of the field each mode requires (the switch of lines 55 to
    74): the text of the error, if any. *)
Definition requiredField (mode : RelayMode)
    (textRequest : GeneralOpenAIRequest) : option string :=
  match mode with
  | RelayModeCompletions =>
      if any_is_empty_string (Prompt textRequest)
      then Some "field prompt is required" else None
  | RelayModeChatCompletions =>
      match Messages textRequest with
      | [] => Some "field messages is required"
      | _ :: _ => None
      end
  | RelayModeEmbeddings => None
  | RelayModeModerations =>
      if any_is_empty_string (Input textRequest)
      then Some "field input is required" else None
  | RelayModeEdits =>
      if String.eqb (Instruction textRequest) ""
      then Some "field instruction is required" else None
  | _ => None
  end.

(** [body] is what [common.UnmarshalBodyReusable] made of the request
    body: the text of its error, or the decoded request.  The result is
    the text of the error, or the request with the relay information whose
    stream flag was set. *)
Definition getAndValidateTextRequest (c : GinContext) (relayInfo : RelayInfo)
    (body : string + GeneralOpenAIRequest)
    : string + GeneralOpenAIRequest * RelayInfo :=
  match body with
  | inl err => inl err
  | inr textRequest =>
      let textRequest := defaultModel c relayInfo textRequest in
      if (MaxTokens textRequest <? 0)
         || (MaxTokens textRequest >? MaxInt32 / 2)
      then inl "max_tokens is invalid"
      else if String.eqb (Model textRequest) "" then inl "model is required"
      else
        match requiredField (Mode relayInfo) textRequest with
        | Some err => inl err
        | None =>
            inr (textRequest, setStream relayInfo (Stream textRequest))
        end
  end.


(** ** Go strings: the functions of package strings the relay calls *)

Module GoStrings.

Definition len (s : string) : Z := Z.of_nat (String.length s).

Definition take (n : nat) (s : string) : string := String.substring 0 n s.

Definition drop (n : nat) (s : string) : string :=
  String.substring n (String.length s - n) s.

(** [s[:hi]] and [s[lo:]]; [None] is the run-time panic of an index out of
    range. *)
Definition slice_to (s : string) (hi : Z) : option string :=
  if (0 <=? hi) && (hi <=? len s) then Some (take (Z.to_nat hi) s) else None.

Definition slice_from (s : string) (lo : Z) : option string :=
  if (0 <=? lo) && (lo <=? len s) then Some (drop (Z.to_nat lo) s) else None.

Definition HasPrefix (s p : string) : bool := String.prefix p s.

Definition TrimPrefix (s p : string) : string :=
  if HasPrefix s p then drop (String.length p) s else s.

Definition HasSuffix (s suffix : string) : bool :=
  (String.length suffix <=? String.length s)%nat
  && String.eqb (drop (String.length s - String.length suffix) s) suffix.

Definition TrimSuffix (s suffix : string) : string :=
  if HasSuffix s suffix then take (String.length s - String.length suffix) s
  else s.

(** [strings.Index]: [None] for -1. *)
Definition Index (s substr : string) : option nat := String.index 0 substr s.

(** [strings.Split s sep] for a separator that is not empty; the fuel
    bounds the number of separators found. *)
Fixpoint Split_from (fuel : nat) (s sep : string) : list string :=
  match fuel with
  | O => [s]
  | S fuel' =>
      match Index s sep with
      | None => [s]
      | Some i =>
          take i s :: Split_from fuel' (drop (i + String.length sep) s) sep
      end
  end.

Definition Split (s sep : string) : list string :=
  Split_from (String.length s) s sep.

(** [strings.Replace s old new (-1)] for an [old] that is not empty. *)
Fixpoint ReplaceAll_from (fuel : nat) (s old new : string) : string :=
  match fuel with
  | O => s
  | S fuel' =>
      match Index s old with
      | None => s
      | Some i =>
          take i s +:+ new
          +:+ ReplaceAll_from fuel' (drop (i + String.length old) s) old new
      end
  end.

Definition ReplaceAll (s old new : string) : string :=
  ReplaceAll_from (String.length s) s old new.

Definition lower_ascii (a : ascii) : ascii :=
  let n := nat_of_ascii a in
  if (65 <=? n)%nat && (n <=? 90)%nat then ascii_of_nat (n + 32) else a.

(** [strings.ToLower] on ASCII text. *)
Fixpoint ToLower (s : string) : string :=
  match s with
  | EmptyString => EmptyString
  | String a r => String (lower_ascii a) (ToLower r)
  end.

Definition is_space (a : ascii) : bool :=
  let n := nat_of_ascii a in
  ((9 <=? n)%nat && (n <=? 13)%nat) || (n =? 32)%nat.

Fixpoint trim_left (s : string) : string :=
  match s with
  | String a r => if is_space a then trim_left r else s
  | EmptyString => EmptyString
  end.

Fixpoint trim_right (s : string) : string :=
  match s with
  | EmptyString => EmptyString
  | String a r =>
      match trim_right r with
      | EmptyString => if is_space a then EmptyString else String a EmptyString
      | r' => String a r'
      end
  end.

(** [bytes.TrimSpace] on ASCII text. *)
Definition TrimSpace (s : string) : string := trim_right (trim_left s).

(** [strings.Join]. *)
Definition Join (elems : list string) (sep : string) : string :=
  String.concat sep elems.

End GoStrings.


(** ** service/sensitive.go: the sensitive-word filter *)

(** [goahocorasick.Term]: the rune offset of a hit and the word found. *)
Record Term := {
  Pos : Z;
  Word : string
}.

(** The hits of the dictionary that end at offset [e] (exclusive) of
    [content]: the substrings of each length from [n] down to 1 that are
    words of the dictionary, the longest first. *)
Fixpoint hits_ending_at (dict : list string) (content : string) (e n : nat)
    : list Term :=
  match n with
  | O => []
  | S n' =>
      let w := String.substring (e - n) n content in
      ((if existsb (String.eqb w) dict
        then [{| Pos := Z.of_nat (e - n); Word := w |}] else [])
       ++ hits_ending_at dict content e n')%list
  end.

(** All hits with their end among the first [e] offsets, by end offset. *)
Fixpoint hits_upto (dict : list string) (content : string) (e : nat)
    : list Term :=
  match e with
  | O => []
  | S e' => (hits_upto dict content e' ++ hits_ending_at dict content e e)%list
  end.

(** [Machine.MultiPatternSearch] of github.com/anknown/ahocorasick, by what
    it computes: every occurrence of every word of the dictionary, in the
    order the automaton reports them (by the offset of the last rune, the
    longest word first); only the first one with [returnImmediately]. *)
Definition MultiPatternSearch (dict : list string) (content : string)
    (returnImmediately : bool) : list Term :=
  let hits := hits_upto dict content (String.length content) in
  if returnImmediately then firstn 1 hits else hits.

(** readRunes: the dictionary of the automaton. *)
Definition readRunes (SensitiveWords : list string) : list string :=
  map (fun word => GoStrings.TrimSpace (GoStrings.ToLower word)) SensitiveWords.

(** [SensitiveWords] is the global [constant.SensitiveWords]. *)
Definition SensitiveWordContains (SensitiveWords : list string)
    (text : string) : bool * list string :=
  if (Z.of_nat (length SensitiveWords) =? 0) then (false, [])
  else
    let checkText := GoStrings.ToLower text in
    let hits := MultiPatternSearch (readRunes SensitiveWords) checkText false in
    if (Z.of_nat (length hits) >? 0) then (true, map Word hits)
    else (false, []).

(** One turn of the replacement loop of SensitiveWordReplace. *)
Definition replaceHit (acc : option (list string * string)) (hit : Term)
    : option (list string * string) :=
  match acc with
  | None => None
  | Some (words, text) =>
      let pos := Pos hit in
      let word := Word hit in
      match GoStrings.slice_to text pos,
            GoStrings.slice_from text (GoInt.add pos (GoStrings.len word)) with
      | Some before, Some after =>
          Some ((words ++ [word])%list, before +:+ "*###*" +:+ after)
      | _, _ => None
      end
  end.

(** [None] is a panic (a slice out of range in the loop). *)
Definition SensitiveWordReplace (SensitiveWords : list string)
    (text : string) (returnImmediately : bool)
    : option (bool * list string * string) :=
  if (Z.of_nat (length SensitiveWords) =? 0) then Some (false, [], text)
  else
    let checkText := GoStrings.ToLower text in
    let hits :=
      MultiPatternSearch (readRunes SensitiveWords) checkText
        returnImmediately in
    if (Z.of_nat (length hits) >? 0) then
      match fold_left replaceHit hits (Some ([], text)) with
      | Some (words, text) => Some (true, words, text)
      | None => None
      end
    else Some (false, [], text).

(** The redaction the specification asks for: one pass from left to right
    over the original text with the offsets of the hits as found; a hit
    that starts inside a span already replaced is covered by it. *)
Fixpoint redact_from (hits : list Term) (text : string) (at_ : Z) : string :=
  match hits with
  | [] => GoStrings.drop (Z.to_nat at_) text
  | hit :: rest =>
      if Pos hit <? at_ then redact_from rest text at_
      else
        String.substring (Z.to_nat at_) (Z.to_nat (Pos hit - at_)) text
        +:+ "*###*"
        +:+ redact_from rest text (Pos hit + GoStrings.len (Word hit))
  end.

Definition spec_redact (SensitiveWords : list string) (text : string) : string :=
  redact_from
    (MultiPatternSearch (readRunes SensitiveWords) (GoStrings.ToLower text) false)
    text 0.

(** ** relay/channel/openai/adaptor.go: GetRequestURL *)

Class RelayCommonPkg := {
  ChannelTypeAzure : Z;
  GetFullRequestURL : string -> string -> Z -> string
}.

(** The deployment segment of an Azure URL, from the upstream model name. *)
Definition azureDeployment (model_ : string) : string :=
  let model_ := GoStrings.ReplaceAll model_ "." "" in
  let model_ := GoStrings.TrimSuffix model_ "-0301" in
  let model_ := GoStrings.TrimSuffix model_ "-0314" in
  let model_ := GoStrings.TrimSuffix model_ "-0613" in
  model_.

(** The error of the Go function is always nil: the result is the URL. *)
Definition GetRequestURL `{RelayCommonPkg} (info : RelayInfo) : string :=
  if ChannelType info =? ChannelTypeAzure then
    let requestURL := hd "" (GoStrings.Split (RequestURLPath info) "?") in
    let requestURL := requestURL +:+ "?api-version=" +:+ ApiVersion info in
    let task := GoStrings.TrimPrefix requestURL "/v1/" in
    let model_ := azureDeployment (UpstreamModelName info) in
    let requestURL := "/openai/deployments/" +:+ model_ +:+ "/" +:+ task in
    GetFullRequestURL (BaseUrl info) requestURL (ChannelType info)
  else
    GetFullRequestURL (BaseUrl info) (RequestURLPath info) (ChannelType info).


(** ** strconv.Atoi and the verb %d *)

Module GoStrconv.

(** The value [strconv.Atoi] returns and whether its error is nil: 0 with
    a syntax error, the nearest bound with a range error. *)
Definition Atoi (s : string) : Z * bool :=
  let '(negative, digits) :=
    match s with
    | String "-"%char r => (true, r)
    | String "+"%char r => (false, r)
    | _ => (false, s)
    end in
  match digits with
  | EmptyString => (0, false)
  | _ =>
      match NilEmpty.uint_of_string digits with
      | None => (0, false)
      | Some u =>
          let n := if negative then - Z.of_uint u else Z.of_uint u in
          if n <? GoInt.min_int then (GoInt.min_int, false)
          else if n >? GoInt.max_int then (GoInt.max_int, false)
          else (n, true)
      end
  end.

(** [fmt.Sprintf "%d" n]. *)
Definition Itoa (n : Z) : string := NilZero.string_of_int (Z.to_int n).

End GoStrconv.

(** ** controller/relay.go: Relay *)

(** What Relay calls outside the controller.  A helper is run to its
    result, the error it returns; what it wrote to the client on success
    is not part of the model. *)
Class RelayPkg := {
  Path2RelayMode : string -> RelayMode;
  RelayImageHelper : GinContext -> RelayMode -> option OpenAIErrorWithStatusCode;
  AudioHelper : GinContext -> RelayMode -> option OpenAIErrorWithStatusCode;
  TextHelper : GinContext -> option OpenAIErrorWithStatusCode;
  RetryTimes : Z;
  RequestIdKey : string;
  MessageWithRequestId : string -> string -> string;
  ShouldDisableChannel : OpenAIError -> Z -> bool
}.

(** The answer the controller writes: [c.Redirect code location] or
    [c.JSON code {error: err}]. *)
Inductive Response :=
| Redirect (code : Z) (location : string)
| JSON (code : Z) (error : OpenAIError).

Record RelayOutcome := {
  (** [None]: no error, the helper has answered *)
  response : option Response;
  (** the arguments of [service.DisableChannel], when it is called *)
  disabled : option (Z * string * string)
}.

Definition setMessage (e : OpenAIErrorWithStatusCode) (m : string)
    : OpenAIErrorWithStatusCode :=
  {| Error := {| Message := m;
                 Type_ := Type_ (Error e);
                 Param := Param (Error e);
                 Code := Code (Error e) |};
     StatusCode := StatusCode e |}.

(** The retry counter Relay works with (lines 45 to 49). *)
Definition retryCounter `{RelayPkg} (c : GinContext) : Z :=
  let retryTimesStr := ctxQuery c "retry" in
  let retryTimes := fst (GoStrconv.Atoi retryTimesStr) in
  if String.eqb retryTimesStr "" then RetryTimes else retryTimes.

(** The helper the relay mode selects. *)
Definition relayHelper `{RelayPkg} (c : GinContext)
    : option OpenAIErrorWithStatusCode :=
  let relayMode := Path2RelayMode (URLPath c) in
  match relayMode with
  | RelayModeImagesGenerations => RelayImageHelper c relayMode
  | RelayModeAudioSpeech
  | RelayModeAudioTranslation
  | RelayModeAudioTranscription => AudioHelper c relayMode
  | _ => TextHelper c
  end.

Definition Relay `{RelayPkg} (c : GinContext) : RelayOutcome :=
  match relayHelper c with
  | None => {| response := None; disabled := None |}
  | Some err =>
      let requestId := GetString c RequestIdKey in
      let retryTimes := retryCounter c in
      let '(resp, err) :=
        if retryTimes >? 0 then
          (Redirect StatusTemporaryRedirect
             (URLPath c +:+ "?retry="
              +:+ GoStrconv.Itoa (GoInt.sub retryTimes 1)),
           err)
        else
          let err :=
            setMessage err
              (MessageWithRequestId (Message (Error err)) requestId) in
          (JSON (StatusCode err) (Error err), err) in
      let channelId := GetInt c "channel_id" in
      let autoBan := GetBool c "auto_ban" in
      {| response := Some resp;
         disabled :=
           if ShouldDisableChannel (Error err) (StatusCode err) && autoBan
           then Some (channelId, GetString c "channel_name",
                      Message (Error err))
           else None |}
  end.


(** ** An instance of the quota store, from the specification *)

(** Modelled from the spec: the credential ("Token") of the data model of
    section 3, whose declaration in package model is not part of the relay
    engine: a quota balance or the unlimited flag, scoped to an account. *)
Record Credential := {
  cred_owner : Z;
  cred_quota : Z;
  cred_unlimited : bool
}.

(** Modelled from the spec: the store behind the ledger contract of
    section 6, whose implementation (package model) is not part of the
    relay engine.  An account has a cache-backed balance, reconciled
    against the balance of the persistent store, and usage counters; a
    channel has a used-quota counter; the audit log is append-only. *)
Record SpecStore := {
  account_cache : gmap Z Z;
  account_stored : gmap Z Z;
  account_used : gmap Z Z;
  account_requests : gmap Z Z;
  credentials : gmap Z Credential;
  channel_used : gmap Z Z;
  audit_log : list ConsumeLogEntry
}.

Definition with_account_cache (s : SpecStore) (m : gmap Z Z) : SpecStore :=
  {| account_cache := m;
     account_stored := account_stored s;
     account_used := account_used s;
     account_requests := account_requests s;
     credentials := credentials s;
     channel_used := channel_used s;
     audit_log := audit_log s |}.

Definition with_credentials (s : SpecStore) (m : gmap Z Credential)
    : SpecStore :=
  {| account_cache := account_cache s;
     account_stored := account_stored s;
     account_used := account_used s;
     account_requests := account_requests s;
     credentials := m;
     channel_used := channel_used s;
     audit_log := audit_log s |}.

Definition counter (m : gmap Z Z) (k : Z) : Z :=
  match m !! k with Some n => n | None => 0 end.

(** Modelled from the spec: "get-balance" of section 6, the read of the
    cache-backed balance of an account. *)
Definition spec_get_balance (userId : Z) (s : SpecStore) : string + Z :=
  match account_cache s !! userId with
  | Some q => inr q
  | None => inl "user not found"
  end.

(** Modelled from the spec: "atomic-decrement-balance" of section 6
    ("decrements the account balance immediately", section 4.3). *)
Definition spec_decrement_balance (userId quota : Z) (s : SpecStore)
    : SpecStore * option string :=
  match account_cache s !! userId with
  | Some q =>
      (with_account_cache s (<[userId := GoInt.sub q quota]> (account_cache s)),
       None)
  | None => (s, Some "user not found")
  end.

(** Modelled from the spec: "reserve-credential-quota" of section 6: the
    reservation against the credential is rejected up front when it would
    make its balance negative (section 3), an unlimited credential is not
    charged; the result is the balance of its account. *)
Definition spec_reserve_credential (tokenId quota : Z) (s : SpecStore)
    : SpecStore * (string + Z) :=
  match credentials s !! tokenId with
  | None => (s, inl "token not found")
  | Some cred =>
      if cred_unlimited cred then
        (s, inr (counter (account_cache s) (cred_owner cred)))
      else if GoInt.sub (cred_quota cred) quota <? 0 then
        (s, inl "token quota is not enough")
      else
        (with_credentials s
           (<[tokenId := {| cred_owner := cred_owner cred;
                            cred_quota := GoInt.sub (cred_quota cred) quota;
                            cred_unlimited := false |}]> (credentials s)),
         inr (counter (account_cache s) (cred_owner cred)))
  end.

(** Modelled from the spec: "settle-credential-quota (delta + reservation
    amount + commit flag)" of section 6: the delta is taken from the
    balance of the credential (a negative delta gives it back). *)
Definition spec_settle_credential (tokenId userQuota quotaDelta
    preConsumedQuota : Z) (commit : bool) (s : SpecStore)
    : SpecStore * option string :=
  match credentials s !! tokenId with
  | None => (s, Some "token not found")
  | Some cred =>
      if cred_unlimited cred then (s, None)
      else
        (with_credentials s
           (<[tokenId := {| cred_owner := cred_owner cred;
                            cred_quota := GoInt.sub (cred_quota cred) quotaDelta;
                            cred_unlimited := false |}]> (credentials s)),
         None)
  end.

(** Modelled from the spec: "refresh-cache-from-store" of section 6. *)
Definition spec_refresh_cache (userId : Z) (s : SpecStore)
    : SpecStore * option string :=
  match account_stored s !! userId with
  | Some q => (with_account_cache s (<[userId := q]> (account_cache s)), None)
  | None => (s, Some "user not found")
  end.

(** Modelled from the spec: "increment-account-usage-counters" of
    section 6. *)
Definition spec_account_usage (userId quota : Z) (s : SpecStore) : SpecStore :=
  {| account_cache := account_cache s;
     account_stored := account_stored s;
     account_used :=
       <[userId := GoInt.add (counter (account_used s) userId) quota]>
         (account_used s);
     account_requests :=
       <[userId := GoInt.add (counter (account_requests s) userId) 1]>
         (account_requests s);
     credentials := credentials s;
     channel_used := channel_used s;
     audit_log := audit_log s |}.

(** Modelled from the spec: "increment-channel-usage-counter" of
    section 6. *)
Definition spec_channel_usage (channelId quota : Z) (s : SpecStore) : SpecStore :=
  {| account_cache := account_cache s;
     account_stored := account_stored s;
     account_used := account_used s;
     account_requests := account_requests s;
     credentials := credentials s;
     channel_used :=
       <[channelId := GoInt.add (counter (channel_used s) channelId) quota]>
         (channel_used s);
     audit_log := audit_log s |}.

(** Modelled from the spec: "append-audit-log" of section 6. *)
Definition spec_append_audit (e : ConsumeLogEntry) (s : SpecStore) : SpecStore :=
  {| account_cache := account_cache s;
     account_stored := account_stored s;
     account_used := account_used s;
     account_requests := account_requests s;
     credentials := credentials s;
     channel_used := channel_used s;
     audit_log := (audit_log s ++ [e])%list |}.

#[export] Instance SpecLedger : LedgerStore SpecStore := {
  CacheGetUserQuota := spec_get_balance;
  CacheDecreaseUserQuota := spec_decrement_balance;
  PreConsumeTokenQuota := spec_reserve_credential;
  PostConsumeTokenQuota := spec_settle_credential;
  CacheUpdateUserQuota := spec_refresh_cache;
  UpdateUserUsedQuotaAndRequestCount := spec_account_usage;
  UpdateChannelUsedQuota := spec_channel_usage;
  RecordConsumeLog := spec_append_audit
}.

(** An error wrapper that keeps the text of the error, the code and the
    status, for the examples. *)
Definition plainErrorWrapper (err code : string) (statusCode : Z)
    : OpenAIErrorWithStatusCode :=
  {| Error := {| Message := err; Type_ := "new_api_error"; Param := "";
                 Code := code |};
     StatusCode := statusCode |}.

#[export] Instance PlainService : ServicePkg := {
  OpenAIErrorWrapper := plainErrorWrapper
}.

(** The request context and the relay information of the examples: account
    1, credential 7 limited to [tokenQuota], channel 3. *)
Definition exampleContext (tokenQuota : Z) : GinContext :=
  {| Keys := <["token_quota" := VInt tokenQuota]>
               (<["token_name" := VString "default"]> ∅);
     Params := ∅;
     QueryArgs := ∅;
     URLPath := "/v1/chat/completions" |}.

Definition exampleInfo (unlimited : bool) : RelayInfo :=
  {| ChannelType := 1; ChannelId := 3; TokenId := 7; UserId := 1;
     Group := "default"; TokenUnlimited := unlimited; StartTime := 1700000000;
     ApiType := 0; IsStream := false; Mode := RelayModeChatCompletions;
     UpstreamModelName := "gpt-3.5-turbo";
     RequestURLPath := "/v1/chat/completions"; ApiVersion := "";
     PromptTokens := 0; ApiKey := "sk"; Organization := ""; BaseUrl := "" |}.

(** A store with the one account 1 of balance [userQuota] and its
    credential 7 of balance [tokenQuota]. *)
Definition exampleStore (userQuota tokenQuota : Z) : SpecStore :=
  {| account_cache := {[ 1 := userQuota ]};
     account_stored := {[ 1 := userQuota ]};
     account_used := ∅;
     account_requests := ∅;
     credentials :=
       {[ 7 := {| cred_owner := 1; cred_quota := tokenQuota;
                  cred_unlimited := false |} ]};
     channel_used := ∅;
     audit_log := [] |}.


(** ** The charge of ratio pricing as the specification states it *)

(** The exact value of a finite float64 (0 for the others). *)
Definition float_value (x : GoFloat.float64) : Q :=
  match x with
  | S754_finite s m e =>
      Qmult (inject_Z (if s then Zneg m else Zpos m)) (Qpower (inject_Z 2) e)
  | _ => inject_Z 0
  end.

(** The nearest integer, halves away from zero (Go's [math.Round]). *)
Definition round_nearest (q : Q) : Z :=
  if Qle_bool (inject_Z 0) q then Qfloor (Qplus q (Qmake 1 2))
  else Qceiling (Qminus q (Qmake 1 2)).

(** Section 4.3: charge = round((promptTokens + completionTokens ×
    completionRatio) × modelRatio × groupRatio), floored to 1 if the ratio
    is nonzero but the charge rounds to 0 (or below). *)
Definition spec_ratio_charge (promptTokens completionTokens : Z)
    (completionRatio modelRatio groupRatio : GoFloat.float64) : Z :=
  let ratio := Qmult (float_value modelRatio) (float_value groupRatio) in
  let charge :=
    round_nearest
      (Qmult
         (Qmult
            (Qplus (inject_Z promptTokens)
               (Qmult (inject_Z completionTokens) (float_value completionRatio)))
            (float_value modelRatio))
         (float_value groupRatio)) in
  if negb (Qeq_bool ratio (inject_Z 0)) && (charge <=? 0) then 1 else charge.

(** ** Package common for the examples *)

Definition two_digits (n : Z) : string :=
  GoStrconv.Itoa (n / 10) +:+ GoStrconv.Itoa (n mod 10).

(** The verb [%.2f]: the decimal with two digits nearest to the value
    (halves to even). *)
Definition example_fmt_2f (x : GoFloat.float64) : string :=
  match x with
  | S754_zero s => if s then "-0.00" else "0.00"
  | S754_infinity s => if s then "-Inf" else "+Inf"
  | S754_nan => "NaN"
  | S754_finite s m e =>
      let num := Zpos m * 100 * (if 0 <=? e then 2 ^ e else 1) in
      let den := if 0 <=? e then 1 else 2 ^ (- e) in
      let q := num / den in
      let r := num mod den in
      let n :=
        if (2 * r >? den) || ((2 * r =? den) && Z.odd q) then q + 1 else q in
      (if s then "-" else "") +:+ GoStrconv.Itoa (n / 100) +:+ "."
      +:+ two_digits (n mod 100)
  end.

(** 500,000 quota units per unit of price, and one completion ratio for
    every model. *)
Definition exampleCommon (completionRatio : GoFloat.float64) : CommonPkg :=
  {| QuotaPerUnit := GoFloat.of_int 500000;
     GetCompletionRatio := fun _ => completionRatio;
     fmt_2f := example_fmt_2f |}.

Definition exampleRequest : GeneralOpenAIRequest :=
  {| Model := "gpt-3.5-turbo";
     Messages := [{| Role := "user"; Content := "Hello" |}];
     Prompt := AnyNil; Stream := false; MaxTokens := 0; Input := AnyNil;
     Instruction := "" |}.

Definition f_one : GoFloat.float64 := GoFloat.of_int 1.
Definition f_two : GoFloat.float64 := GoFloat.of_int 2.
Definition f_one_and_half : GoFloat.float64 := GoFloat.of_scaled 3 (-1).


Definition setMode (relayInfo : RelayInfo) (m : RelayMode) : RelayInfo :=
  {| ChannelType := ChannelType relayInfo;
     ChannelId := ChannelId relayInfo;
     TokenId := TokenId relayInfo;
     UserId := UserId relayInfo;
     Group := Group relayInfo;
     TokenUnlimited := TokenUnlimited relayInfo;
     StartTime := StartTime relayInfo;
     ApiType := ApiType relayInfo;
     IsStream := IsStream relayInfo;
     Mode := m;
     UpstreamModelName := UpstreamModelName relayInfo;
     RequestURLPath := RequestURLPath relayInfo;
     ApiVersion := ApiVersion relayInfo;
     PromptTokens := PromptTokens relayInfo;
     ApiKey := ApiKey relayInfo;
     Organization := Organization relayInfo;
     BaseUrl := BaseUrl relayInfo |}.

(** A moderation request that names no model. *)
Definition moderationRequest : GeneralOpenAIRequest :=
  {| Model := ""; Messages := []; Prompt := AnyNil; Stream := false;
     MaxTokens := 0; Input := AnyString "some text"; Instruction := "" |}.


(** ** Package relaycommon for the examples *)

(** The base URL followed by the request URL; Azure is channel type 3. *)
Definition exampleRelayCommon : RelayCommonPkg :=
  {| ChannelTypeAzure := 3;
     GetFullRequestURL := fun baseURL requestURL _ => baseURL +:+ requestURL |}.

Definition azureInfo (model path : string) : RelayInfo :=
  {| ChannelType := 3; ChannelId := 3; TokenId := 7; UserId := 1;
     Group := "default"; TokenUnlimited := false; StartTime := 1700000000;
     ApiType := 0; IsStream := false; Mode := RelayModeChatCompletions;
     UpstreamModelName := model;
     RequestURLPath := path; ApiVersion := "2023-05-15";
     PromptTokens := 0; ApiKey := "key"; Organization := "";
     BaseUrl := "https://example.openai.azure.com" |}.


(** ** The controller's surroundings for the examples *)

Definition examplePath2RelayMode (path : string) : RelayMode :=
  if GoStrings.HasPrefix path "/v1/chat/completions" then RelayModeChatCompletions
  else if GoStrings.HasPrefix path "/v1/completions" then RelayModeCompletions
  else if GoStrings.HasPrefix path "/v1/embeddings" then RelayModeEmbeddings
  else if GoStrings.HasPrefix path "/v1/moderations" then RelayModeModerations
  else if GoStrings.HasPrefix path "/v1/images/generations"
  then RelayModeImagesGenerations
  else if GoStrings.HasPrefix path "/v1/edits" then RelayModeEdits
  else if GoStrings.HasPrefix path "/v1/audio/speech" then RelayModeAudioSpeech
  else if GoStrings.HasPrefix path "/v1/audio/transcriptions"
  then RelayModeAudioTranscription
  else if GoStrings.HasPrefix path "/v1/audio/translations"
  then RelayModeAudioTranslation
  else RelayModeUnknown.

Definition upstreamBusy : OpenAIErrorWithStatusCode :=
  {| Error := {| Message := "upstream is busy"; Type_ := "upstream_error";
                 Param := ""; Code := "rate_limit" |};
     StatusCode := StatusTooManyRequests |}.

(** Every helper fails with [upstreamBusy]; three retries are configured;
    a channel is disabled on status 401. *)
Definition exampleRelay : RelayPkg :=
  {| Path2RelayMode := examplePath2RelayMode;
     RelayImageHelper := fun _ _ => Some upstreamBusy;
     AudioHelper := fun _ _ => Some upstreamBusy;
     TextHelper := fun _ => Some upstreamBusy;
     RetryTimes := 3;
     RequestIdKey := "X-Oneapi-Request-Id";
     MessageWithRequestId :=
       fun message id => message +:+ " (request id: " +:+ id +:+ ")";
     ShouldDisableChannel := fun _ statusCode => statusCode =? 401 |}.

(** A chat request whose query string is [retry=v], or has no retry
    parameter. *)
Definition retryContext (retry : option string) : GinContext :=
  {| Keys := <["X-Oneapi-Request-Id" := VString "20240101"]>
               (<["channel_id" := VInt 3]> ∅);
     Params := ∅;
     QueryArgs :=
       match retry with Some v => {[ "retry" := [v] ]} | None => ∅ end;
     URLPath := "/v1/chat/completions" |}.


(** ** relay/channel/openai: OpenaiStreamHandler *)

(** The double quote, the line feed and the carriage return. *)
Definition dq : string := String "034"%char "".
Definition lf : string := String "010"%char "".
Definition cr : string := String "013"%char "".

Definition quoted (s : string) : string := dq +:+ s +:+ dq.

(** The switches of package constant the handler reads:
    [ShouldCheckCompletionSensitive()], [StopOnSensitiveEnabled] and the
    list [SensitiveWords]. *)
Record SensitiveConfig := {
  CheckCompletionSensitive : bool;
  StopOnSensitiveEnabled : bool;
  ConfiguredWords : list string
}.

(** Modelled from the spec: the stream chunks of package dto, whose
    declarations are not part of the relay engine, as far as the handler
    reads them (section 4.4: "chat: concatenate each delta's content
    field; completion: concatenate each choice's text field"). *)
Record ChatStreamChoice := {
  DeltaContent : string
}.

Record ChatCompletionsStreamResponseSimple := {
  Choices : list ChatStreamChoice
}.

Record CompletionsStreamChoice := {
  Text : string
}.

Record CompletionsStreamResponse := {
  CompletionChoices : list CompletionsStreamChoice
}.

(** [json.Unmarshal] into a slice of chat chunks and into a slice of
    completion chunks; [None] is an error. *)
Class JsonPkg := {
  UnmarshalChatStream :
    string -> option (list ChatCompletionsStreamResponseSimple);
  UnmarshalCompletionsStream : string -> option (list CompletionsStreamResponse)
}.

(** The tokens of the scanner with the split function of the handler: the
    body cut at every line feed, an unterminated last line included, an
    empty rest not (for lines within the buffer of the scanner). *)
Fixpoint scanLines_from (fuel : nat) (data : string) : list string :=
  match fuel with
  | O => []
  | S fuel' =>
      match data with
      | EmptyString => []
      | _ =>
          match GoStrings.Index data lf with
          | Some i =>
              GoStrings.take i data
              :: scanLines_from fuel' (GoStrings.drop (i + 1) data)
          | None => [data]
          end
      end
  end.

Definition scanLines (body : string) : list string :=
  scanLines_from (String.length body) body.

(** What one turn of the reading loop does with a line. *)
Inductive LineOutcome :=
| Dropped
| Kept (frame : string) (item : option string) (stop : bool)
| SentThenPanic (frame : string)
| Panic.

Definition handleLine (cfg : SensitiveConfig) (data : string) : LineOutcome :=
  if GoStrings.len data <? 6 then Dropped
  else if negb (String.eqb (GoStrings.take 6 data) "data: ")
          && negb (String.eqb (GoStrings.take 6 data) "[DONE]")
  then Dropped
  else
    let checked :=
      if CheckCompletionSensitive cfg
      then
        match SensitiveWordReplace (ConfiguredWords cfg) data false with
        | Some (sensitive, _, data) => Some (sensitive, data)
        | None => None
        end
      else Some (false, data) in
    match checked with
    | None => Panic
    | Some (sensitive, data) =>
        let data :=
          GoStrings.ReplaceAll data (quoted "role" +:+ ":null")
            (quoted "role" +:+ ":" +:+ quoted "assistant") in
        let frame := data in
        match GoStrings.slice_from data 6 with
        | None => SentThenPanic frame
        | Some data =>
            Kept frame
              (if negb (GoStrings.HasPrefix data "[DONE]") then Some data
               else None)
              (sensitive && StopOnSensitiveEnabled cfg)
        end
    end.

Definition streamResp (streamItems : list string) : string :=
  "[" +:+ GoStrings.Join streamItems "," +:+ "]".

(** The text the producer writes to the builder after its loop; [None]
    when the unmarshalling fails (the goroutine returns at once). *)
Definition aggregateText `{JsonPkg} (relayMode : RelayMode)
    (streamItems : list string) : option string :=
  match relayMode with
  | RelayModeChatCompletions =>
      match UnmarshalChatStream (streamResp streamItems) with
      | None => None
      | Some streamResponses =>
          Some (String.concat ""
                  (flat_map (fun r => map DeltaContent (Choices r))
                     streamResponses))
      end
  | RelayModeCompletions =>
      match UnmarshalCompletionsStream (streamResp streamItems) with
      | None => None
      | Some streamResponses =>
          Some (String.concat ""
                  (flat_map (fun r => map Text (CompletionChoices r))
                     streamResponses))
      end
  | _ => Some ""
  end.

(** The event the consumer renders for a frame taken from the channel. *)
Definition renderFrame (data : string) : string :=
  let data :=
    if GoStrings.HasPrefix data "data: [DONE]" then GoStrings.take 12 data
    else data in
  GoStrings.TrimSuffix data cr.

(** Where the producer goroutine stands: in its loop with the lines still
    to read, about to send the terminator after a sensitive line, after
    the loop, returned, or dead of a panic. *)
Inductive Producer :=
| Scanning (pending : list string)
| Injecting
| Aggregating
| Finished
| Crashed.

(** The handler and its goroutine: the two channels, the items and the
    builder of the producer, the events rendered to the client, and
    whether [c.Stream] still calls the consumer. *)
Record StreamState := {
  producer : Producer;
  streamItems : list string;
  dataChan : list string;
  stopChan : list bool;
  responseText : string;
  client : list string;
  streaming : bool
}.

Definition dataChanCap : nat := 5.

Definition initStream (body : string) : StreamState :=
  {| producer := Scanning (scanLines body);
     streamItems := [];
     dataChan := [];
     stopChan := [];
     responseText := "";
     client := [];
     streaming := true |}.

(** A send on [dataChan]: blocked ([None]) while the buffer is full. *)
Definition sendData (s : StreamState) (frame : string)
    (items : list string) (next : Producer) : option StreamState :=
  if (length (dataChan s) <? dataChanCap)%nat then
    Some {| producer := next;
            streamItems := (streamItems s ++ items)%list;
            dataChan := (dataChan s ++ [frame])%list;
            stopChan := stopChan s;
            responseText := responseText s;
            client := client s;
            streaming := streaming s |}
  else None.

Definition setProducer (s : StreamState) (next : Producer) : StreamState :=
  {| producer := next;
     streamItems := streamItems s;
     dataChan := dataChan s;
     stopChan := stopChan s;
     responseText := responseText s;
     client := client s;
     streaming := streaming s |}.

(** The next move of the producer.  The sleep before the stop signal
    takes no step: it only delays the signal. *)
Definition produce `{JsonPkg} (cfg : SensitiveConfig) (relayMode : RelayMode)
    (s : StreamState) : option StreamState :=
  match producer s with
  | Scanning [] => Some (setProducer s Aggregating)
  | Scanning (data :: pending) =>
      match handleLine cfg data with
      | Dropped => Some (setProducer s (Scanning pending))
      | Kept frame item stop =>
          sendData s frame (match item with Some i => [i] | None => [] end)
            (if stop then Injecting else Scanning pending)
      | SentThenPanic frame => sendData s frame [] Crashed
      | Panic => Some (setProducer s Crashed)
      end
  | Injecting => sendData s "data: [DONE]" [] Aggregating
  | Aggregating =>
      match aggregateText relayMode (streamItems s) with
      | None => Some (setProducer s Finished)
      | Some text =>
          Some {| producer := Finished;
                  streamItems := streamItems s;
                  dataChan := dataChan s;
                  stopChan := (stopChan s ++ [true])%list;
                  responseText := responseText s +:+ text;
                  client := client s;
                  streaming := streaming s |}
      end
  | Finished | Crashed => None
  end.

(** The two cases of the select of the consumer. *)
Definition receiveData (s : StreamState) : option StreamState :=
  match streaming s, dataChan s with
  | true, data :: rest =>
      Some {| producer := producer s;
              streamItems := streamItems s;
              dataChan := rest;
              stopChan := stopChan s;
              responseText := responseText s;
              client := (client s ++ [renderFrame data])%list;
              streaming := true |}
  | _, _ => None
  end.

Definition receiveStop (s : StreamState) : option StreamState :=
  match streaming s, stopChan s with
  | true, _ :: rest =>
      Some {| producer := producer s;
              streamItems := streamItems s;
              dataChan := dataChan s;
              stopChan := rest;
              responseText := responseText s;
              client := client s;
              streaming := false |}
  | _, _ => None
  end.

(** What the scheduler picks next: a move of the producer goroutine, or
    one of the ready cases of the select.  A panic of the goroutine ends
    the process. *)
Inductive Action :=
| Produce
| ReceiveData
| ReceiveStop.

Definition step `{JsonPkg} (cfg : SensitiveConfig) (relayMode : RelayMode)
    (a : Action) (s : StreamState) : option StreamState :=
  match producer s with
  | Crashed => None
  | _ =>
      match a with
      | Produce => produce cfg relayMode s
      | ReceiveData => receiveData s
      | ReceiveStop => receiveStop s
      end
  end.

(** A run under a schedule: [None] when the schedule picks a move that is
    not possible. *)
Fixpoint run `{JsonPkg} (cfg : SensitiveConfig) (relayMode : RelayMode)
    (schedule : list Action) (s : StreamState) : option StreamState :=
  match schedule with
  | [] => Some s
  | a :: schedule' =>
      match step cfg relayMode a s with
      | Some s' => run cfg relayMode schedule' s'
      | None => None
      end
  end.

(** What OpenaiStreamHandler returns once [c.Stream] has returned and the
    goroutine is done: the error of closing the body with the empty text,
    or the text of the builder; [None] while it has not returned. *)
Definition OpenaiStreamHandler_result `{ServicePkg} (closeErr : option string)
    (s : StreamState) : option (option OpenAIErrorWithStatusCode * string) :=
  if streaming s then None
  else
    match closeErr with
    | Some err =>
        Some (Some (OpenAIErrorWrapper err "close_response_body_failed"
                      StatusInternalServerError), "")
    | None =>
        match producer s with
        | Finished => Some (None, responseText s)
        | _ => None
        end
    end.

(** The frames the producer sends and the items it keeps for the lines
    it still has to read. *)
Fixpoint framesOf (cfg : SensitiveConfig) (lines : list string) : list string :=
  match lines with
  | [] => []
  | data :: pending =>
      match handleLine cfg data with
      | Dropped => framesOf cfg pending
      | Kept frame _ stop =>
          frame :: (if stop then ["data: [DONE]"] else framesOf cfg pending)
      | SentThenPanic frame => [frame]
      | Panic => []
      end
  end.

Fixpoint itemsOf (cfg : SensitiveConfig) (lines : list string) : list string :=
  match lines with
  | [] => []
  | data :: pending =>
      match handleLine cfg data with
      | Dropped => itemsOf cfg pending
      | Kept _ item stop =>
          ((match item with Some i => [i] | None => [] end)
           ++ (if stop then [] else itemsOf cfg pending))%list
      | SentThenPanic _ | Panic => []
      end
  end.

Definition framesAhead (cfg : SensitiveConfig) (p : Producer) : list string :=
  match p with
  | Scanning pending => framesOf cfg pending
  | Injecting => ["data: [DONE]"]
  | _ => []
  end.

Definition itemsAhead (cfg : SensitiveConfig) (p : Producer) : list string :=
  match p with
  | Scanning pending => itemsOf cfg pending
  | _ => []
  end.

(** The stream of the specification: two chat chunks and the terminator,
    each event followed by an empty line. *)
Definition chunkJson (content : string) : string :=
  "{" +:+ quoted "choices" +:+ ":[{" +:+ quoted "delta" +:+ ":{"
  +:+ quoted "content" +:+ ":" +:+ quoted content +:+ "}}]}".

Definition frameHi : string := "data: " +:+ chunkJson "Hi".
Definition frameThere : string := "data: " +:+ chunkJson " there".
Definition frameDone : string := "data: [DONE]".

Definition hiThereBody : string :=
  frameHi +:+ lf +:+ lf +:+ frameThere +:+ lf +:+ lf +:+ frameDone +:+ lf +:+ lf.



(** ** A JSON decoder for the examples

    A decoder for JSON texts without [\u] escapes, and the decoding of a
    JSON value into the stream chunks as [encoding/json] does it: the keys
    of an object are matched to the fields without regard to case, the
    last one wins, unknown keys are skipped, null leaves the zero value
    and a value of another kind is an error. *)

#[warnings="-register-all"]
Inductive json :=
| JNull
| JBool (b : bool)
| JNumber (literal : string)
| JString (s : string)
| JArray (elements : list json)
| JObject (members : list (string * json)).

Definition is_json_space (a : ascii) : bool :=
  let n := nat_of_ascii a in
  (n =? 32)%nat || (n =? 9)%nat || (n =? 10)%nat || (n =? 13)%nat.

Fixpoint skip_space (s : string) : string :=
  match s with
  | String a r => if is_json_space a then skip_space r else s
  | EmptyString => EmptyString
  end.

(** The character an escape sequence of one letter stands for. *)
Definition unescape (a : ascii) : option ascii :=
  let n := nat_of_ascii a in
  if (n =? 34)%nat then Some a
  else if (n =? 92)%nat then Some a
  else if (n =? 47)%nat then Some a
  else if (n =? 98)%nat then Some "008"%char
  else if (n =? 102)%nat then Some "012"%char
  else if (n =? 110)%nat then Some "010"%char
  else if (n =? 114)%nat then Some "013"%char
  else if (n =? 116)%nat then Some "009"%char
  else None.

(** The text of a string after its opening quote, and what follows its
    closing quote. *)
Fixpoint parse_string_body (s : string) : option (string * string) :=
  match s with
  | EmptyString => None
  | String a r =>
      let n := nat_of_ascii a in
      if (n =? 34)%nat then Some (EmptyString, r)
      else if (n <? 32)%nat then None
      else if (n =? 92)%nat then
        match r with
        | String e r' =>
            match unescape e, parse_string_body r' with
            | Some ch, Some (t, rest) => Some (String ch t, rest)
            | _, _ => None
            end
        | EmptyString => None
        end
      else
        match parse_string_body r with
        | Some (t, rest) => Some (String a t, rest)
        | None => None
        end
  end.

Definition is_number_char (a : ascii) : bool :=
  let n := nat_of_ascii a in
  ((48 <=? n)%nat && (n <=? 57)%nat)
  || (n =? 45)%nat || (n =? 43)%nat || (n =? 46)%nat
  || (n =? 101)%nat || (n =? 69)%nat.

Fixpoint span_number (s : string) : string * string :=
  match s with
  | String a r =>
      if is_number_char a then
        let '(digits, rest) := span_number r in (String a digits, rest)
      else (EmptyString, s)
  | EmptyString => (EmptyString, EmptyString)
  end.

Definition parse_scalar (s : string) : option (json * string) :=
  if GoStrings.HasPrefix s "null" then Some (JNull, GoStrings.drop 4 s)
  else if GoStrings.HasPrefix s "true" then Some (JBool true, GoStrings.drop 4 s)
  else if GoStrings.HasPrefix s "false"
  then Some (JBool false, GoStrings.drop 5 s)
  else
    match span_number s with
    | (EmptyString, _) => None
    | (literal, rest) => Some (JNumber literal, rest)
    end.

Fixpoint parse_value (fuel : nat) (s : string) : option (json * string) :=
  match fuel with
  | O => None
  | S fuel' =>
      match skip_space s with
      | String "{"%char r =>
          match skip_space r with
          | String "}"%char r' => Some (JObject [], r')
          | _ => parse_members fuel' r []
          end
      | String "["%char r =>
          match skip_space r with
          | String "]"%char r' => Some (JArray [], r')
          | _ => parse_elements fuel' r []
          end
      | String "034"%char r =>
          match parse_string_body r with
          | Some (t, rest) => Some (JString t, rest)
          | None => None
          end
      | s' => parse_scalar s'
      end
  end
with parse_elements (fuel : nat) (s : string) (acc : list json)
    : option (json * string) :=
  match fuel with
  | O => None
  | S fuel' =>
      match parse_value fuel' s with
      | None => None
      | Some (v, rest) =>
          match skip_space rest with
          | String ","%char r => parse_elements fuel' r (acc ++ [v])%list
          | String "]"%char r => Some (JArray (acc ++ [v])%list, r)
          | _ => None
          end
      end
  end
with parse_members (fuel : nat) (s : string) (acc : list (string * json))
    : option (json * string) :=
  match fuel with
  | O => None
  | S fuel' =>
      match skip_space s with
      | String "034"%char r =>
          match parse_string_body r with
          | None => None
          | Some (key, rest) =>
              match skip_space rest with
              | String ":"%char r2 =>
                  match parse_value fuel' r2 with
                  | None => None
                  | Some (v, rest2) =>
                      match skip_space rest2 with
                      | String ","%char r3 =>
                          parse_members fuel' r3 (acc ++ [(key, v)])%list
                      | String "}"%char r3 =>
                          Some (JObject (acc ++ [(key, v)])%list, r3)
                      | _ => None
                      end
                  end
              | _ => None
              end
          end
      | _ => None
      end
  end.

(** A whole text as one JSON value. *)
Definition parse_json (s : string) : option json :=
  match parse_value (S (String.length s)) s with
  | Some (v, rest) =>
      match skip_space rest with
      | EmptyString => Some v
      | _ => None
      end
  | None => None
  end.

(** The value of the field [name] among the members of an object: the
    last member whose key is the name up to case. *)
Definition field (name : string) (members : list (string * json))
    : option json :=
  fold_left
    (fun found member =>
       if String.eqb (GoStrings.ToLower (fst member)) (GoStrings.ToLower name)
       then Some (snd member) else found)
    members None.

Definition decode_string (v : json) : option string :=
  match v with
  | JString s => Some s
  | JNull => Some ""
  | _ => None
  end.

Fixpoint decode_all {A : Type} (decode : json -> option A) (l : list json)
    : option (list A) :=
  match l with
  | [] => Some []
  | v :: l' =>
      match decode v, decode_all decode l' with
      | Some a, Some l'' => Some (a :: l'')
      | _, _ => None
      end
  end.

Definition decode_slice {A : Type} (decode : json -> option A) (v : json)
    : option (list A) :=
  match v with
  | JArray l => decode_all decode l
  | JNull => Some []
  | _ => None
  end.

(** A struct field: absent, the zero value. *)
Definition decode_field {A : Type} (decode : json -> option A) (zero : A)
    (name : string) (members : list (string * json)) : option A :=
  match field name members with
  | None => Some zero
  | Some v => decode v
  end.

Definition decode_delta (v : json) : option string :=
  match v with
  | JObject members => decode_field decode_string "" "content" members
  | JNull => Some ""
  | _ => None
  end.

Definition decode_chat_choice (v : json) : option ChatStreamChoice :=
  match v with
  | JObject members =>
      match decode_field decode_delta "" "delta" members with
      | Some content => Some {| DeltaContent := content |}
      | None => None
      end
  | JNull => Some {| DeltaContent := "" |}
  | _ => None
  end.

Definition decode_chat_chunk (v : json)
    : option ChatCompletionsStreamResponseSimple :=
  match v with
  | JObject members =>
      match decode_field (decode_slice decode_chat_choice) [] "choices"
              members with
      | Some choices => Some {| Choices := choices |}
      | None => None
      end
  | JNull => Some {| Choices := [] |}
  | _ => None
  end.

Definition decode_completion_choice (v : json) : option CompletionsStreamChoice :=
  match v with
  | JObject members =>
      match decode_field decode_string "" "text" members with
      | Some text => Some {| Text := text |}
      | None => None
      end
  | JNull => Some {| Text := "" |}
  | _ => None
  end.

Definition decode_completion_chunk (v : json)
    : option CompletionsStreamResponse :=
  match v with
  | JObject members =>
      match decode_field (decode_slice decode_completion_choice) [] "choices"
              members with
      | Some choices => Some {| CompletionChoices := choices |}
      | None => None
      end
  | JNull => Some {| CompletionChoices := [] |}
  | _ => None
  end.

Definition exampleJson : JsonPkg :=
  {| UnmarshalChatStream := fun text =>
       match parse_json text with
       | Some v => decode_slice decode_chat_chunk v
       | None => None
       end;
     UnmarshalCompletionsStream := fun text =>
       match parse_json text with
       | Some v => decode_slice decode_completion_chunk v
       | None => None
       end |}.

(** The schedule in which the producer runs to its end before the
    consumer takes [frames] frames and then the stop signal. *)
Definition producerFirst (moves frames : nat) : list Action :=
  (repeat Produce moves ++ repeat ReceiveData frames ++ [ReceiveStop])%list.

Definition plainConfig : SensitiveConfig :=
  {| CheckCompletionSensitive := false; StopOnSensitiveEnabled := false;
     ConfiguredWords := [] |}.



(** What holds of the handler in every state it reaches from the lines of
    the body: the events of the client, the frames in the channel and the
    frames still to come are the frames of the lines in their order; the
    items are those of the lines; before the producer is done there is no
    stop signal and the builder is empty; a stop signal means the builder
    holds the text aggregated from the items. *)
Definition streamInvariant `{JsonPkg} (cfg : SensitiveConfig)
    (relayMode : RelayMode) (lines : list string) (s : StreamState) : Prop :=
  (client s
   ++ map renderFrame (dataChan s ++ framesAhead cfg (producer s)))%list
  = map renderFrame (framesOf cfg lines)
  /\ (streamItems s ++ itemsAhead cfg (producer s))%list = itemsOf cfg lines
  /\ (producer s <> Finished ->
      stopChan s = [] /\ streaming s = true /\ responseText s = "")
  /\ (stopChan s <> [] \/ streaming s = false ->
      aggregateText relayMode (itemsOf cfg lines) = Some (responseText s)).


(** ** The client that follows the redirects of the controller *)

Definition setRetryQuery (c : GinContext) (v : string) : GinContext :=
  {| Keys := Keys c;
     Params := Params c;
     QueryArgs := <["retry" := [v]]> (QueryArgs c);
     URLPath := URLPath c |}.

(** The request a client sends when it follows the redirect of a request
    [c] to [location]: the same request with the retry parameter of the
    location. *)
Definition followRedirect (c : GinContext) (location : string) : GinContext :=
  setRetryQuery c (GoStrings.TrimPrefix location (URLPath c +:+ "?retry=")).

(** The answers a client gets that follows at most [fuel] redirects. *)
Fixpoint attempts `{RelayPkg} (fuel : nat) (c : GinContext) : list Response :=
  match fuel with
  | O => []
  | S fuel' =>
      match response (Relay c) with
      | Some (Redirect code location) =>
          Redirect code location :: attempts fuel' (followRedirect c location)
      | Some answer => [answer]
      | None => []
      end
  end.


(** An upstream that rejects the key of the channel. *)
Definition invalidKey : OpenAIErrorWithStatusCode :=
  {| Error := {| Message := "Incorrect API key provided";
                 Type_ := "invalid_request_error";
                 Param := ""; Code := "invalid_api_key" |};
     StatusCode := 401 |}.

(** As [exampleRelay], every helper failing with [err]. *)
Definition failingRelay (err : OpenAIErrorWithStatusCode) : RelayPkg :=
  {| Path2RelayMode := examplePath2RelayMode;
     RelayImageHelper := fun _ _ => Some err;
     AudioHelper := fun _ _ => Some err;
     TextHelper := fun _ => Some err;
     RetryTimes := 3;
     RequestIdKey := "X-Oneapi-Request-Id";
     MessageWithRequestId :=
       fun message id => message +:+ " (request id: " +:+ id +:+ ")";
     ShouldDisableChannel := fun _ statusCode => statusCode =? 401 |}.

(** A chat request on channel 3, which the middleware marked with
    auto_ban, with the query string [retry=v]. *)
Definition banContext (v : string) : GinContext :=
  {| Keys := <["auto_ban" := VBool true]>
               (<["channel_name" := VString "primary"]>
                  (<["X-Oneapi-Request-Id" := VString "20240101"]>
                     (<["channel_id" := VInt 3]> ∅)));
     Params := ∅;
     QueryArgs := {[ "retry" := [v] ]};
     URLPath := "/v1/chat/completions" |}.


(** * Properties *)

(** ** Go integers *)

Lemma wrap_in_int (z : Z) : GoInt.in_int z -> GoInt.wrap z = z.
Proof.
  unfold GoInt.in_int, GoInt.wrap, GoInt.min_int, GoInt.max_int.
  intros Hz. rewrite Z.mod_small; lia.
Qed.

Lemma wrap_range (z : Z) : GoInt.in_int (GoInt.wrap z).
Proof.
  unfold GoInt.in_int, GoInt.wrap, GoInt.min_int, GoInt.max_int.
  pose proof (Z.mod_pos_bound (z + 2 ^ 63) (2 ^ 64) ltac:(lia)). lia.
Qed.

(** ** The reservation: preConsumeQuota *)

Section PreConsumeFacts.
Context `{ServicePkg} {St : Type} `{LedgerStore St}.

Lemma trustedAmount_trusted (c : GinContext) (info : RelayInfo) (uq amt : Z) :
  GoInt.in_int uq -> 0 <= amt -> uq > 100 * amt ->
  TokenUnlimited info = true \/ GetInt c "token_quota" > 100 * amt ->
  trustedAmount c info uq amt = 0.
Proof.
  intros Huq Hamt Hgt Htok. unfold trustedAmount, GoInt.mul.
  assert (Hin : GoInt.in_int (100 * amt)).
  { unfold GoInt.in_int, GoInt.min_int, GoInt.max_int in *. lia. }
  rewrite (wrap_in_int _ Hin).
  destruct (Z.gtb_spec uq (100 * amt)) as [_ | Hle]; [| lia].
  destruct Htok as [Hunl | Htok].
  - rewrite Hunl. reflexivity.
  - destruct (TokenUnlimited info); simpl; [reflexivity |].
    destruct (Z.gtb_spec (GetInt c "token_quota") (100 * amt)); [reflexivity | lia].
Qed.

(** The trust fast path on any store: the amount reserved is 0, the store
    is the one the decrement of the account balance leaves, and the
    credential reservation is not called. *)
Lemma preConsumeQuota_trusted (c : GinContext) (amt : Z) (info : RelayInfo)
    (s s1 : St) (uq : Z) :
  CacheGetUserQuota (UserId info) s = inr uq ->
  CacheDecreaseUserQuota (UserId info) amt s = (s1, None) ->
  GoInt.in_int uq -> 0 <= amt -> uq > 100 * amt ->
  TokenUnlimited info = true \/ GetInt c "token_quota" > 100 * amt ->
  preConsumeQuota c amt info s = (s1, inr (0, uq)).
Proof.
  intros Hget Hdec Huq Hamt Hgt Htok. unfold preConsumeQuota.
  rewrite Hget.
  assert (Hsub : GoInt.sub uq amt = uq - amt).
  { apply wrap_in_int.
    unfold GoInt.in_int, GoInt.min_int, GoInt.max_int in *. lia. }
  rewrite Hsub.
  destruct (Z.leb_spec uq 0) as [Hle | _]; [lia |].
  destruct (Z.ltb_spec (uq - amt) 0) as [Hlt | _]; [lia |].
  simpl. rewrite Hdec.
  rewrite (trustedAmount_trusted c info uq amt Huq Hamt Hgt Htok).
  reflexivity.
Qed.

(** C2, as the code has it: when the account balance exceeds 100 times a
    request that is not negative, and the credential is unlimited or its
    quota exceeds 100 times the request, the only store operation that
    preConsumeQuota performs is the decrement of the account balance by
    the request, which it runs before the trust test: the store returned is
    the one this decrement leaves, the credential reservation is not
    called, and the amount reserved is 0 (with the balance read before the
    decrement), unless the decrement itself fails. *)
Theorem preConsumeQuota_trust_path (c : GinContext) (amt : Z)
    (info : RelayInfo) (s : St) (uq : Z) :
  CacheGetUserQuota (UserId info) s = inr uq ->
  GoInt.in_int uq -> 0 <= amt -> uq > 100 * amt ->
  TokenUnlimited info = true \/ GetInt c "token_quota" > 100 * amt ->
  preConsumeQuota c amt info s
  = (fst (CacheDecreaseUserQuota (UserId info) amt s),
     match snd (CacheDecreaseUserQuota (UserId info) amt s) with
     | None => inr (0, uq)
     | Some err =>
         inl (OpenAIErrorWrapper err "decrease_user_quota_failed"
                StatusInternalServerError)
     end).
Proof.
  intros Hget Huq Hamt Hgt Htok.
  destruct (CacheDecreaseUserQuota (UserId info) amt s) as [s1 [err |]] eqn:Hdec.
  - unfold preConsumeQuota. rewrite Hget.
    assert (Hsub : GoInt.sub uq amt = uq - amt).
    { apply wrap_in_int.
      unfold GoInt.in_int, GoInt.min_int, GoInt.max_int in *. lia. }
    rewrite Hsub.
    destruct (Z.leb_spec uq 0) as [Hle | _]; [lia |].
    destruct (Z.ltb_spec (uq - amt) 0) as [Hlt | _]; [lia |].
    cbn [orb]. rewrite Hdec. reflexivity.
  - exact (preConsumeQuota_trusted c amt info s s1 uq Hget Hdec Huq Hamt Hgt
             Htok).
Qed.

(** C3: a reservation that the account balance cannot cover, or any
    reservation on a balance that is not positive, fails with the error
    insufficient_user_quota of status 403 (forbidden), and the store is
    returned as it was: no balance of an account or of a credential is
    touched. *)
Theorem preConsumeQuota_insufficient (c : GinContext) (amt : Z)
    (info : RelayInfo) (s : St) (uq : Z) :
  CacheGetUserQuota (UserId info) s = inr uq ->
  GoInt.in_int uq -> GoInt.in_int amt ->
  uq <= 0 \/ uq - amt < 0 ->
  preConsumeQuota c amt info s
  = (s, inl (OpenAIErrorWrapper "user quota is not enough"
               "insufficient_user_quota" StatusForbidden)).
Proof.
  intros Hget Huq Hamt Hlow. unfold preConsumeQuota. rewrite Hget.
  destruct (Z.leb_spec uq 0) as [Hle | Hpos]; [reflexivity |].
  assert (Hsub : GoInt.sub uq amt = uq - amt).
  { apply wrap_in_int.
    unfold GoInt.in_int, GoInt.min_int, GoInt.max_int in *. lia. }
  rewrite Hsub.
  destruct (Z.ltb_spec (uq - amt) 0) as [Hlt | Hge]; [reflexivity | lia].
Qed.

End PreConsumeFacts.

(** The rejection of the specification: balance 50, request 100. *)
Lemma preConsumeQuota_insufficient_witness :
  preConsumeQuota (exampleContext 10000) 100 (exampleInfo false)
    (exampleStore 50 10000)
  = (exampleStore 50 10000,
     inl (OpenAIErrorWrapper "user quota is not enough"
            "insufficient_user_quota" StatusForbidden)).
Proof.
  apply (preConsumeQuota_insufficient (exampleContext 10000) 100
           (exampleInfo false) (exampleStore 50 10000) 50).
  - reflexivity.
  - unfold GoInt.in_int, GoInt.min_int, GoInt.max_int. lia.
  - unfold GoInt.in_int, GoInt.min_int, GoInt.max_int. lia.
  - right. lia.
Defined.

(** The claim of C2 fails on the account: with balance 1,000,000, request
    100 and a credential quota of 20,000 the amount reserved is 0 and the
    credential keeps its balance, but the balance of the account that the
    next reservation reads went from 1,000,000 to 999,900. *)
Lemma preConsumeQuota_trusted_changes_account :
  let s := exampleStore 1000000 20000 in
  let r := preConsumeQuota (exampleContext 20000) 100 (exampleInfo false) s in
  snd r = inr (0, 1000000)
  /\ credentials (fst r) = credentials s
  /\ CacheGetUserQuota 1 s = inr 1000000
  /\ CacheGetUserQuota 1 (fst r) = inr 999900.
Proof. vm_compute. repeat split; reflexivity. Qed.

(** At a credential quota of exactly 100 times the request the fast path
    is not taken: the 100 units are reserved against the credential. *)
Lemma preConsumeQuota_boundary_reserves :
  let s := exampleStore 1000000 10000 in
  let r := preConsumeQuota (exampleContext 10000) 100 (exampleInfo false) s in
  snd r = inr (100, 999900)
  /\ credentials (fst r) !! 7
     = Some {| cred_owner := 1; cred_quota := 9900; cred_unlimited := false |}.
Proof. vm_compute. split; reflexivity. Qed.

(** The fast path on the store of the specification: the amount reserved
    is 0 and no credential is touched; the cache-backed balance of the
    account has been decremented by the request, and nothing else of the
    store has changed. *)
Lemma preConsumeQuota_trusted_balances (c : GinContext) (amt : Z)
    (info : RelayInfo) (s : SpecStore) (uq : Z) :
  account_cache s !! UserId info = Some uq ->
  GoInt.in_int uq -> 0 <= amt -> uq > 100 * amt ->
  TokenUnlimited info = true \/ GetInt c "token_quota" > 100 * amt ->
  preConsumeQuota c amt info s
  = (with_account_cache s (<[UserId info := uq - amt]> (account_cache s)),
     inr (0, uq))
  /\ credentials (fst (preConsumeQuota c amt info s)) = credentials s.
Proof.
  intros Hacc Huq Hamt Hgt Htok.
  assert (Hsub : GoInt.sub uq amt = uq - amt).
  { apply wrap_in_int.
    unfold GoInt.in_int, GoInt.min_int, GoInt.max_int in *. lia. }
  assert (Hrun : preConsumeQuota c amt info s
                 = (with_account_cache s
                      (<[UserId info := uq - amt]> (account_cache s)),
                    inr (0, uq))).
  { apply preConsumeQuota_trusted; try assumption.
    - simpl. unfold spec_get_balance. rewrite Hacc. reflexivity.
    - simpl. unfold spec_decrement_balance. rewrite Hacc, Hsub. reflexivity. }
  split; [exact Hrun |]. rewrite Hrun. reflexivity.
Qed.

(** The fast path of the specification: balance 1,000,000, request 100,
    credential quota 20,000. *)
Lemma preConsumeQuota_trust_path_witness :
  preConsumeQuota (exampleContext 20000) 100 (exampleInfo false)
    (exampleStore 1000000 20000)
  = (fst (CacheDecreaseUserQuota 1 100 (exampleStore 1000000 20000)),
     inr (0, 1000000)).
Proof.
  exact (preConsumeQuota_trust_path (exampleContext 20000) 100
           (exampleInfo false) (exampleStore 1000000 20000) 1000000 eq_refl
           ltac:(unfold GoInt.in_int, GoInt.min_int, GoInt.max_int; lia)
           ltac:(lia) ltac:(lia)
           (or_intror
              (eq_refl : GetInt (exampleContext 20000) "token_quota"
                         > 100 * 100))).
Defined.

Lemma preConsumeQuota_trusted_balances_example :
  preConsumeQuota (exampleContext 20000) 100 (exampleInfo false)
    (exampleStore 1000000 20000)
  = (with_account_cache (exampleStore 1000000 20000)
       (<[1 := 1000000 - 100]> (account_cache (exampleStore 1000000 20000))),
     inr (0, 1000000))
  /\ credentials
       (fst (preConsumeQuota (exampleContext 20000) 100 (exampleInfo false)
               (exampleStore 1000000 20000)))
     = credentials (exampleStore 1000000 20000).
Proof.
  apply (preConsumeQuota_trusted_balances (exampleContext 20000) 100
           (exampleInfo false) (exampleStore 1000000 20000) 1000000).
  - reflexivity.
  - unfold GoInt.in_int, GoInt.min_int, GoInt.max_int. lia.
  - lia.
  - lia.
  - right. vm_compute. reflexivity.
Qed.

(** ** The settlement: postConsumeQuota *)

(** [int(x)] of a float with a fractional part drops the fraction: the
    result is the quotient of the division that truncates toward zero. *)
Lemma trunc_fraction (s : bool) (m : positive) (e : Z) :
  e < 0 ->
  GoFloat.trunc (S754_finite s m e)
  = Some (Z.quot (if s then Zneg m else Zpos m) (2 ^ (- e))).
Proof.
  intros He. unfold GoFloat.trunc.
  destruct (Z.leb_spec 0 e) as [Hle | _]; [lia |].
  assert (Hpow : 0 < 2 ^ (- e)) by (apply Z.pow_pos_nonneg; lia).
  assert (Hq : Z.quot (Zpos m) (2 ^ (- e)) = Zpos m / 2 ^ (- e)).
  { apply Z.quot_div_nonneg; lia. }
  destruct s.
  - change (Zneg m) with (- Zpos m). rewrite Z.quot_opp_l by lia.
    rewrite Hq. reflexivity.
  - rewrite Hq. reflexivity.
Qed.

Section PostConsumeFacts.
Context `{CommonPkg} {St : Type} `{LedgerStore St}.

(** Without tokens the charge is 0, whatever the pricing mode. *)
Lemma chargedQuota_zero_total (model : string) (usage : Usage)
    (ratio groupRatio modelPrice : GoFloat.float64) :
  GoInt.add (UsagePromptTokens usage) (UsageCompletionTokens usage) = 0 ->
  chargedQuota model usage ratio groupRatio modelPrice = 0.
Proof. intros Hz. unfold chargedQuota. rewrite Hz. reflexivity. Qed.

(** C1: without tokens the charge is 0 under either pricing mode, and the
    whole settlement is the consume log with quota 0: the settlement of
    the credential by the charge less the reservation and the refresh of
    the account cache are not called, whatever amount was reserved, so
    the reservation is left as it is. *)
Theorem postConsumeQuota_without_tokens (ctx : GinContext) (info : RelayInfo)
    (req : GeneralOpenAIRequest) (usage : Usage) (ratio : GoFloat.float64)
    (preConsumedQuota userQuota : Z)
    (modelRatio groupRatio modelPrice : GoFloat.float64)
    (sensitiveResp : option SensitiveResponse) (now : Z) (s : St) :
  GoInt.add (UsagePromptTokens usage) (UsageCompletionTokens usage) = 0 ->
  chargedQuota (Model req) usage ratio groupRatio modelPrice = 0
  /\ postConsumeQuota ctx info req usage ratio preConsumedQuota userQuota
       modelRatio groupRatio modelPrice sensitiveResp now s
     = RecordConsumeLog
         {| log_userId := UserId info;
            log_channelId := ChannelId info;
            log_promptTokens := UsagePromptTokens usage;
            log_completionTokens := UsageCompletionTokens usage;
            log_modelName :=
              if String.prefix "gpt-4-gizmo" (Model req) then "gpt-4-gizmo-*"
              else Model req;
            log_tokenName := GetString ctx "token_name";
            log_quota := 0;
            log_content :=
              logContentOf (Model req) 0 modelRatio groupRatio modelPrice
                sensitiveResp;
            log_tokenId := TokenId info;
            log_userQuota := userQuota;
            log_useTimeSeconds := GoInt.sub now (StartTime info);
            log_isStream := IsStream info |} s.
Proof.
  intros Hz. split; [exact (chargedQuota_zero_total _ _ _ _ _ Hz) |].
  unfold postConsumeQuota. rewrite Hz. reflexivity.
Qed.

(** The consume log carries the charge, and with tokens the credential is
    settled by the charge less the reservation. *)
Lemma postConsumeQuota_settles (ctx : GinContext) (info : RelayInfo)
    (req : GeneralOpenAIRequest) (usage : Usage) (ratio : GoFloat.float64)
    (preConsumedQuota userQuota : Z)
    (modelRatio groupRatio modelPrice : GoFloat.float64)
    (sensitiveResp : option SensitiveResponse) (now : Z) (s : St) :
  GoInt.add (UsagePromptTokens usage) (UsageCompletionTokens usage) <> 0 ->
  let quota := chargedQuota (Model req) usage ratio groupRatio modelPrice in
  exists entry,
    log_quota entry = quota
    /\ postConsumeQuota ctx info req usage ratio preConsumedQuota userQuota
         modelRatio groupRatio modelPrice sensitiveResp now s
       = RecordConsumeLog entry
           (UpdateChannelUsedQuota (ChannelId info) quota
              (UpdateUserUsedQuotaAndRequestCount (UserId info) quota
                 (fst (CacheUpdateUserQuota (UserId info)
                         (fst (PostConsumeTokenQuota (TokenId info) userQuota
                                 (GoInt.sub quota preConsumedQuota)
                                 preConsumedQuota true s)))))).
Proof.
  intros Hnz quota. unfold postConsumeQuota. subst quota. unfold chargedQuota.
  destruct (Z.eqb_spec
              (GoInt.add (UsagePromptTokens usage) (UsageCompletionTokens usage))
              0) as [Hz | _]; [contradiction |].
  eexists. split; [| reflexivity]. reflexivity.
Qed.

(** C4, as the code has it: under ratio pricing with tokens the charge is
    the product of the token count and the ratio with its fraction
    dropped, where the token count is the prompt tokens plus the product of
    the completion tokens and the completion ratio with its fraction
    dropped (two truncations toward zero, no rounding); when the ratio is
    not zero and this is 0 or below, the charge is 1, so that the charge is
    positive whenever the ratio is not zero. *)
Theorem chargedQuota_ratio_pricing (model : string) (usage : Usage)
    (ratio groupRatio modelPrice : GoFloat.float64) :
  GoFloat.eqb modelPrice minus_one = true ->
  GoInt.add (UsagePromptTokens usage) (UsageCompletionTokens usage) <> 0 ->
  let tokens :=
    GoInt.add (UsagePromptTokens usage)
      (GoFloat.to_int
         (GoFloat.mul (GoFloat.of_int (UsageCompletionTokens usage))
            (GetCompletionRatio model))) in
  let product := GoFloat.to_int (GoFloat.mul (GoFloat.of_int tokens) ratio) in
  chargedQuota model usage ratio groupRatio modelPrice
  = (if GoFloat.eqb ratio GoFloat.zero then product else Z.max 1 product)
  /\ (GoFloat.eqb ratio GoFloat.zero = false ->
      1 <= chargedQuota model usage ratio groupRatio modelPrice).
Proof.
  intros Hprice Hnz tokens product. unfold chargedQuota, pricedQuota.
  destruct (Z.eqb_spec
              (GoInt.add (UsagePromptTokens usage) (UsageCompletionTokens usage))
              0) as [Hz | _]; [contradiction |].
  rewrite Hprice. fold tokens. fold product.
  destruct (GoFloat.eqb ratio GoFloat.zero); simpl.
  - split; [reflexivity | discriminate].
  - destruct (Z.leb_spec product 0) as [Hle | Hgt].
    + split; [lia | intros _; lia].
    + split; [lia | intros _; lia].
Qed.

End PostConsumeFacts.

(** Ratio pricing of 10 prompt and 20 completion tokens at completion
    ratio 1.5 and ratio 2: 10 + 30 tokens, charge 80. *)
Lemma chargedQuota_ratio_pricing_witness :
  @chargedQuota (exampleCommon f_one_and_half) "gpt-3.5-turbo"
    {| UsagePromptTokens := 10; UsageCompletionTokens := 20;
       UsageTotalTokens := 30 |} f_two f_one minus_one
  = 80
  /\ 1 <= @chargedQuota (exampleCommon f_one_and_half) "gpt-3.5-turbo"
            {| UsagePromptTokens := 10; UsageCompletionTokens := 20;
               UsageTotalTokens := 30 |} f_two f_one minus_one.
Proof.
  pose proof (@chargedQuota_ratio_pricing (exampleCommon f_one_and_half)
                "gpt-3.5-turbo"
                {| UsagePromptTokens := 10; UsageCompletionTokens := 20;
                   UsageTotalTokens := 30 |} f_two f_one minus_one
                eq_refl ltac:(vm_compute; discriminate)) as [Heq Hpos].
  split.
  - rewrite Heq. vm_compute. reflexivity.
  - apply Hpos. vm_compute. reflexivity.
Defined.

(** The formula of C4 fails on the code: for 0 prompt tokens, 1 completion
    token, completion ratio 1.5, model ratio 2 and group ratio 1 the
    formula gives round(1.5 × 2 × 1) = 3 (the product is exactly 3), the
    code charges 2: the 1.5 tokens are truncated to 1 before the ratio is
    applied. *)
Lemma chargedQuota_is_not_rounded :
  spec_ratio_charge 0 1 f_one_and_half f_two f_one = 3
  /\ @chargedQuota (exampleCommon f_one_and_half) "gpt-3.5-turbo"
       {| UsagePromptTokens := 0; UsageCompletionTokens := 1;
          UsageTotalTokens := 1 |} (GoFloat.mul f_two f_one) f_one minus_one
     = 2.
Proof. vm_compute. split; reflexivity. Qed.

(** A settlement without tokens after a reservation of 500 units, on the
    store preConsumeQuota leaves of an account of 20,000 and a credential
    of 10,000. *)
Lemma postConsumeQuota_without_tokens_witness :
  @chargedQuota (exampleCommon f_one_and_half) "gpt-3.5-turbo"
    {| UsagePromptTokens := 0; UsageCompletionTokens := 0;
       UsageTotalTokens := 0 |} f_two f_one minus_one
  = 0
  /\ @postConsumeQuota (exampleCommon f_one_and_half) _ _
       (exampleContext 10000) (exampleInfo false) exampleRequest
       {| UsagePromptTokens := 0; UsageCompletionTokens := 0;
          UsageTotalTokens := 0 |} f_two 500 19500 f_two f_one minus_one None
       1700000003
       (fst (preConsumeQuota (exampleContext 10000) 500 (exampleInfo false)
               (exampleStore 20000 10000)))
     = RecordConsumeLog
         {| log_userId := 1;
            log_channelId := 3;
            log_promptTokens := 0;
            log_completionTokens := 0;
            log_modelName := "gpt-3.5-turbo";
            log_tokenName := GetString (exampleContext 10000) "token_name";
            log_quota := 0;
            log_content :=
              @logContentOf (exampleCommon f_one_and_half) "gpt-3.5-turbo" 0
                f_two f_one minus_one None;
            log_tokenId := 7;
            log_userQuota := 19500;
            log_useTimeSeconds := GoInt.sub 1700000003 1700000000;
            log_isStream := false |}
         (fst (preConsumeQuota (exampleContext 10000) 500 (exampleInfo false)
                 (exampleStore 20000 10000))).
Proof.
  exact (@postConsumeQuota_without_tokens (exampleCommon f_one_and_half) _ _
           (exampleContext 10000) (exampleInfo false) exampleRequest
           {| UsagePromptTokens := 0; UsageCompletionTokens := 0;
              UsageTotalTokens := 0 |} f_two 500 19500 f_two f_one minus_one
           None 1700000003
           (fst (preConsumeQuota (exampleContext 10000) 500
                   (exampleInfo false) (exampleStore 20000 10000)))
           eq_refl).
Defined.

(** The same on the balances: the reservation of 500 units made by
    preConsumeQuota on an account of 20,000 and a credential of 10,000 is
    followed by a settlement with no tokens.  The charge logged is 0 under
    ratio pricing and under fixed pricing, but the credential stays at
    9,500 and the account at 19,500: the reservation is not reconciled.
    Giving it back is what returnPreConsumedQuota does on the same
    store. *)
Lemma postConsumeQuota_zero_total_keeps_reservation :
  let ctx := exampleContext 10000 in
  let info := exampleInfo false in
  let reserved := preConsumeQuota ctx 500 info (exampleStore 20000 10000) in
  let s1 := fst reserved in
  let usage :=
    {| UsagePromptTokens := 0; UsageCompletionTokens := 0;
       UsageTotalTokens := 0 |} in
  let settle modelPrice :=
    @postConsumeQuota (exampleCommon f_one_and_half) _ _ ctx info
      exampleRequest usage f_two 500 19500 f_two f_one modelPrice None
      1700000003 s1 in
  snd reserved = inr (500, 19500)
  /\ map log_quota (audit_log (settle minus_one)) = [0]
  /\ map log_quota (audit_log (settle f_two)) = [0]
  /\ credentials (settle minus_one) = credentials s1
  /\ credentials (settle f_two) = credentials s1
  /\ account_cache (settle minus_one) = account_cache s1
  /\ option_map cred_quota (credentials (settle minus_one) !! 7) = Some 9500
  /\ option_map cred_quota
       (credentials (returnPreConsumedQuota 7 19500 500 s1) !! 7)
     = Some 10000.
Proof. vm_compute. repeat split; reflexivity. Qed.

(** ** The validation: getAndValidateTextRequest *)

Lemma defaultModel_moderations (c : GinContext) (info : RelayInfo)
    (req : GeneralOpenAIRequest) :
  Mode info = RelayModeModerations ->
  defaultModel c info req
  = if String.eqb (Model req) "" then setModel req "text-moderation-latest"
    else req.
Proof.
  intros Hmode. unfold defaultModel. rewrite Hmode.
  destruct (String.eqb (Model req) ""); reflexivity.
Qed.

Lemma defaultModel_embeddings (c : GinContext) (info : RelayInfo)
    (req : GeneralOpenAIRequest) :
  Mode info = RelayModeEmbeddings ->
  defaultModel c info req
  = if String.eqb (Model req) "" then setModel req (ctxParam c "model")
    else req.
Proof.
  intros Hmode. unfold defaultModel. rewrite Hmode.
  destruct (String.eqb (Model req) ""); reflexivity.
Qed.

(** C10: in moderation mode the model of the request is never empty when
    the model check runs (an empty one has become text-moderation-latest),
    so the validation of a decoded request ends in one of three ways, none
    of them the error "model is required": max_tokens is invalid, the
    input is required, or the request is accepted with its model
    defaulted.  In embeddings mode an empty model is replaced by the URL
    parameter model before the check. *)
Theorem moderation_model_is_defaulted (c : GinContext)
    (info info' : RelayInfo) (req : GeneralOpenAIRequest) :
  Mode info = RelayModeModerations ->
  Mode info' = RelayModeEmbeddings ->
  let defaulted :=
    if String.eqb (Model req) "" then "text-moderation-latest" else Model req in
  (getAndValidateTextRequest c info (inr req) = inl "max_tokens is invalid"
   \/ getAndValidateTextRequest c info (inr req) = inl "field input is required"
   \/ getAndValidateTextRequest c info (inr req)
      = inr (setModel req defaulted, setStream info (Stream req)))
  /\ Model (defaultModel c info req) = defaulted
  /\ String.eqb (Model (defaultModel c info req)) "" = false
  /\ Model (defaultModel c info' req)
     = if String.eqb (Model req) "" then ctxParam c "model" else Model req.
Proof.
  intros Hmode Hmode' defaulted.
  assert (Hdef : defaultModel c info req = setModel req defaulted).
  { rewrite (defaultModel_moderations c info req Hmode). subst defaulted.
    destruct (String.eqb (Model req) ""); [reflexivity |].
    destruct req; reflexivity. }
  assert (Hne : String.eqb defaulted "" = false).
  { subst defaulted. destruct (String.eqb (Model req) "") eqn:E;
      [reflexivity | exact E]. }
  repeat split.
  - unfold getAndValidateTextRequest. rewrite Hdef. simpl.
    destruct ((MaxTokens req <? 0) || (MaxTokens req >? MaxInt32 / 2));
      [left; reflexivity |].
    rewrite Hne. rewrite Hmode. simpl.
    destruct (any_is_empty_string (Input req));
      [right; left; reflexivity | right; right; reflexivity].
  - rewrite Hdef. reflexivity.
  - rewrite Hdef. exact Hne.
  - rewrite (defaultModel_embeddings c info' req Hmode').
    destruct (String.eqb (Model req) ""); reflexivity.
Qed.

(** A moderation request without a model is accepted with the model
    text-moderation-latest. *)
Lemma moderation_model_is_defaulted_witness :
  (getAndValidateTextRequest (exampleContext 0)
     (setMode (exampleInfo false) RelayModeModerations) (inr moderationRequest)
   = inl "max_tokens is invalid"
   \/ getAndValidateTextRequest (exampleContext 0)
        (setMode (exampleInfo false) RelayModeModerations)
        (inr moderationRequest)
      = inl "field input is required"
   \/ getAndValidateTextRequest (exampleContext 0)
        (setMode (exampleInfo false) RelayModeModerations)
        (inr moderationRequest)
      = inr (setModel moderationRequest "text-moderation-latest",
             setStream (setMode (exampleInfo false) RelayModeModerations)
               false))
  /\ Model (defaultModel (exampleContext 0)
              (setMode (exampleInfo false) RelayModeModerations)
              moderationRequest)
     = "text-moderation-latest"
  /\ String.eqb
       (Model (defaultModel (exampleContext 0)
                 (setMode (exampleInfo false) RelayModeModerations)
                 moderationRequest)) ""
     = false
  /\ Model (defaultModel (exampleContext 0)
              (setMode (exampleInfo false) RelayModeEmbeddings)
              moderationRequest)
     = ctxParam (exampleContext 0) "model".
Proof.
  exact (moderation_model_is_defaulted (exampleContext 0)
           (setMode (exampleInfo false) RelayModeModerations)
           (setMode (exampleInfo false) RelayModeEmbeddings)
           moderationRequest eq_refl eq_refl).
Defined.

(** In embeddings mode the model check can still fail: an empty model and
    no URL parameter. *)
Lemma embeddings_model_can_be_required :
  getAndValidateTextRequest (exampleContext 0)
    (setMode (exampleInfo false) RelayModeEmbeddings) (inr moderationRequest)
  = inl "model is required".
Proof. vm_compute. reflexivity. Qed.

(** ** The sensitive-word filter *)

(** C8: with no phrase configured the filter reports no match, returns no
    word and returns the text as it is, for every text and both ways of
    searching; SensitiveWordContains likewise reports no match and no
    word. *)
Theorem sensitive_filter_without_phrases (text : string)
    (returnImmediately : bool) :
  SensitiveWordReplace [] text returnImmediately = Some (false, [], text)
  /\ SensitiveWordContains [] text = (false, []).
Proof. split; reflexivity. Qed.

(** The same holds whenever the search has no hit. *)
Lemma sensitive_filter_without_hits (words : list string) (text : string)
    (returnImmediately : bool) :
  MultiPatternSearch (readRunes words) (GoStrings.ToLower text)
    returnImmediately = [] ->
  SensitiveWordReplace words text returnImmediately = Some (false, [], text).
Proof.
  intros Hhits. unfold SensitiveWordReplace. rewrite Hhits.
  destruct (Z.of_nat (length words) =? 0); reflexivity.
Qed.

(** C5: with the one phrase "ab" the text "ab ab" has the two hits at
    offsets 0 and 3.  The loop replaces the first one, which makes the
    text three bytes longer, and then cuts the new text at the old offset
    3: the result is "*##*###* ab", in which the second occurrence is
    still there and the first mask is damaged, where a single pass over
    the original offsets gives "*###* *###*".  With a phrase longer than
    the mask the stale offset runs past the end of the shortened text and
    the slice panics. *)
Theorem SensitiveWordReplace_stale_offsets :
  MultiPatternSearch (readRunes ["ab"]) (GoStrings.ToLower "ab ab") false
  = [{| Pos := 0; Word := "ab" |}; {| Pos := 3; Word := "ab" |}]
  /\ SensitiveWordReplace ["ab"] "ab ab" false
     = Some (true, ["ab"; "ab"], "*##*###* ab")
  /\ spec_redact ["ab"] "ab ab" = "*###* *###*"
  /\ SensitiveWordReplace ["abcdefgh"] "abcdefgh abcdefgh" false = None.
Proof. vm_compute. repeat split; reflexivity. Qed.

(** When the phrase is as long as the mask the offsets stay right. *)
Lemma SensitiveWordReplace_same_length :
  SensitiveWordReplace ["hello"] "Hello, hello" false
  = Some (true, ["hello"; "hello"], "*###*, *###*").
Proof. vm_compute. reflexivity. Qed.

(** ** Go strings and the Azure request URL *)

Lemma append_cons (a : ascii) (s t : string) :
  String a s +:+ t = String a (s +:+ t).
Proof. reflexivity. Qed.

Lemma append_nil (t : string) : "" +:+ t = t.
Proof. reflexivity. Qed.

Lemma take_cons (n : nat) (a : ascii) (s : string) :
  GoStrings.take (S n) (String a s) = String a (GoStrings.take n s).
Proof. reflexivity. Qed.

Lemma drop_cons (n : nat) (a : ascii) (s : string) :
  GoStrings.drop (S n) (String a s) = GoStrings.drop n s.
Proof. reflexivity. Qed.

Lemma drop_zero (s : string) : GoStrings.drop 0 s = s.
Proof.
  unfold GoStrings.drop. rewrite Nat.sub_0_r.
  induction s as [| a s IH]; simpl; [reflexivity |]. f_equal. exact IH.
Qed.

Lemma index_char_cons (a b : ascii) (s : string) :
  GoStrings.Index (String b s) (String a "")
  = if ascii_dec a b then Some O
    else option_map S (GoStrings.Index s (String a "")).
Proof.
  unfold GoStrings.Index. simpl.
  destruct (ascii_dec a b); [destruct s; reflexivity |].
  destruct (String.index 0 (String a "") s); reflexivity.
Qed.

(** The first occurrence of a character cuts a string in the part before
    it, which does not contain it, and the part after it. *)
Lemma index_char_split (a : ascii) (s : string) (i : nat) :
  GoStrings.Index s (String a "") = Some i ->
  GoStrings.Index (GoStrings.take i s) (String a "") = None
  /\ s = GoStrings.take i s +:+ String a "" +:+ GoStrings.drop (i + 1) s.
Proof.
  revert i. induction s as [| b s IH]; intros i Hi.
  - discriminate.
  - rewrite index_char_cons in Hi. destruct (ascii_dec a b) as [-> | Hab].
    + injection Hi as <-. split; [reflexivity |].
      change (0 + 1)%nat with 1%nat. rewrite drop_cons, drop_zero.
      reflexivity.
    + destruct (GoStrings.Index s (String a "")) as [j |] eqn:Hj;
        [| discriminate].
      injection Hi as <-. destruct (IH j eq_refl) as [Hnone Heq].
      split.
      * rewrite take_cons, index_char_cons.
        destruct (ascii_dec a b); [contradiction |]. rewrite Hnone. reflexivity.
      * rewrite take_cons. change (S j + 1)%nat with (S (j + 1)).
        rewrite drop_cons, append_cons. f_equal. exact Heq.
Qed.

(** The first field of a split at a character. *)
Lemma split_char_head (a : ascii) (s : string) :
  let head := hd "" (GoStrings.Split s (String a "")) in
  GoStrings.Index head (String a "") = None
  /\ (s = head \/ exists rest, s = head +:+ String a "" +:+ rest).
Proof.
  unfold GoStrings.Split. destruct s as [| b s]; [split; [reflexivity | left; reflexivity] |].
  cbn [String.length GoStrings.Split_from].
  destruct (GoStrings.Index (String b s) (String a "")) as [i |] eqn:Hi.
  - cbn [hd]. destruct (index_char_split a _ i Hi) as [Hnone Heq].
    split; [exact Hnone |]. right. eexists. exact Heq.
  - cbn [hd]. split; [exact Hi | left; reflexivity].
Qed.

Lemma prefix_cons (a b : ascii) (s1 s2 : string) :
  String.prefix (String a s1) (String b s2)
  = if ascii_dec a b then String.prefix s1 s2 else false.
Proof. reflexivity. Qed.

Lemma prefix_nil (s : string) : String.prefix "" s = true.
Proof. destruct s; reflexivity. Qed.

(** A prefix without the character [c] is not affected by what follows
    a [c]. *)
Lemma prefix_append_char (p path : string) (c : ascii) (q : string) :
  GoStrings.Index p (String c "") = None ->
  String.prefix p (path +:+ String c q) = String.prefix p path.
Proof.
  revert path. induction p as [| a p IH]; intros path Hno.
  - rewrite !prefix_nil. reflexivity.
  - rewrite index_char_cons in Hno.
    destruct (ascii_dec c a) as [| Hca]; [discriminate |].
    destruct (GoStrings.Index p (String c "")) eqn:Hp; [discriminate |].
    destruct path as [| b path].
    + rewrite append_nil, prefix_cons.
      destruct (ascii_dec a c); [congruence | reflexivity].
    + rewrite append_cons, !prefix_cons.
      destruct (ascii_dec a b); [apply IH; reflexivity | reflexivity].
Qed.

Lemma drop_prefix_append (p path t : string) :
  String.prefix p path = true ->
  GoStrings.drop (String.length p) (path +:+ t)
  = GoStrings.drop (String.length p) path +:+ t.
Proof.
  revert path. induction p as [| a p IH]; intros path Hp.
  - cbn [String.length]. rewrite !drop_zero. reflexivity.
  - destruct path as [| b path]; [discriminate |].
    rewrite prefix_cons in Hp. destruct (ascii_dec a b); [| discriminate].
    cbn [String.length]. rewrite append_cons, !drop_cons. apply IH. exact Hp.
Qed.

(** Trimming a prefix without the character [c] commutes with appending
    a text that starts with [c]. *)
Lemma TrimPrefix_append_char (p path : string) (c : ascii) (q : string) :
  GoStrings.Index p (String c "") = None ->
  GoStrings.TrimPrefix (path +:+ String c q) p
  = GoStrings.TrimPrefix path p +:+ String c q.
Proof.
  intros Hno. unfold GoStrings.TrimPrefix, GoStrings.HasPrefix.
  rewrite (prefix_append_char p path c q Hno).
  destruct (String.prefix p path) eqn:Hp; [| reflexivity].
  apply drop_prefix_append. exact Hp.
Qed.

Section AzureFacts.
Context `{RelayCommonPkg}.

(** C6: on an Azure channel the upstream model gpt-4-32k-0613 gives the
    deployment segment gpt-4-32k; the task is the request path cut at its
    first question mark (so without any query string), less the prefix
    /v1/, followed by the api-version parameter. *)
Theorem azure_request_url (info : RelayInfo) :
  ChannelType info = ChannelTypeAzure ->
  UpstreamModelName info = "gpt-4-32k-0613" ->
  let path := hd "" (GoStrings.Split (RequestURLPath info) "?") in
  GetRequestURL info
  = GetFullRequestURL (BaseUrl info)
      ("/openai/deployments/" +:+ "gpt-4-32k" +:+ "/"
       +:+ GoStrings.TrimPrefix path "/v1/"
       +:+ "?api-version=" +:+ ApiVersion info)
      (ChannelType info)
  /\ GoStrings.Index path "?" = None
  /\ (RequestURLPath info = path
      \/ exists query, RequestURLPath info = path +:+ "?" +:+ query).
Proof.
  intros Hazure Hmodel path.
  destruct (split_char_head "?" (RequestURLPath info)) as [Hnone Hcut].
  fold path in Hnone, Hcut.
  split; [| split; [exact Hnone | exact Hcut]].
  unfold GetRequestURL. rewrite Hazure, Z.eqb_refl, Hmodel. fold path.
  change (azureDeployment "gpt-4-32k-0613") with "gpt-4-32k".
  change ("?api-version=" +:+ ApiVersion info)
    with (String "?" ("api-version=" +:+ ApiVersion info)).
  rewrite (TrimPrefix_append_char "/v1/" path "?" _ eq_refl).
  reflexivity.
Qed.

End AzureFacts.

Lemma azure_request_url_witness :
  @GetRequestURL exampleRelayCommon
    (azureInfo "gpt-4-32k-0613" "/v1/chat/completions?foo=bar")
  = "https://example.openai.azure.com/openai/deployments/gpt-4-32k/chat/completions?api-version=2023-05-15".
Proof.
  destruct (@azure_request_url exampleRelayCommon
              (azureInfo "gpt-4-32k-0613" "/v1/chat/completions?foo=bar")
              eq_refl eq_refl) as [Hurl _].
  rewrite Hurl. vm_compute. reflexivity.
Defined.

(** The dots go as well as the date: gpt-3.5-turbo-0613. *)
Lemma azureDeployment_dots :
  azureDeployment "gpt-3.5-turbo-0613" = "gpt-35-turbo"
  /\ azureDeployment "gpt-4-0314" = "gpt-4"
  /\ azureDeployment "gpt-3.5-turbo-0301" = "gpt-35-turbo".
Proof. vm_compute. repeat split; reflexivity. Qed.

(** A text without the character [c] is a concatenation of such texts. *)
Lemma index_char_append (c : ascii) (s t : string) :
  GoStrings.Index s (String c "") = None ->
  GoStrings.Index t (String c "") = None ->
  GoStrings.Index (s +:+ t) (String c "") = None.
Proof.
  intros Hs Ht. induction s as [| a s IH]; [exact Ht |].
  rewrite append_cons, index_char_cons. rewrite index_char_cons in Hs.
  destruct (ascii_dec c a); [discriminate |].
  destruct (GoStrings.Index s (String c "")); [discriminate |].
  rewrite (IH eq_refl). reflexivity.
Qed.

Lemma index_char_take (c : ascii) (n : nat) (s : string) :
  GoStrings.Index s (String c "") = None ->
  GoStrings.Index (GoStrings.take n s) (String c "") = None.
Proof.
  revert n. induction s as [| a s IH]; intros n Hs.
  - destruct n; reflexivity.
  - destruct n as [| n]; [reflexivity |].
    rewrite take_cons, index_char_cons. rewrite index_char_cons in Hs.
    destruct (ascii_dec c a); [discriminate |].
    destruct (GoStrings.Index s (String c "")) eqn:Hi; [discriminate |].
    rewrite (IH n eq_refl). reflexivity.
Qed.

Lemma length_append (s t : string) :
  String.length (s +:+ t) = (String.length s + String.length t)%nat.
Proof.
  induction s as [| a s IH]; [reflexivity |].
  rewrite append_cons. cbn [String.length]. rewrite IH. reflexivity.
Qed.

(** Replacing every occurrence of a character by nothing leaves none. *)
Lemma ReplaceAll_from_removes (c : ascii) (fuel : nat) (s : string) :
  (String.length s <= fuel)%nat ->
  GoStrings.Index (GoStrings.ReplaceAll_from fuel s (String c "") "")
    (String c "") = None.
Proof.
  revert s. induction fuel as [| fuel IH]; intros s Hlen.
  - destruct s; [reflexivity | cbn [String.length] in Hlen; lia].
  - cbn [GoStrings.ReplaceAll_from].
    destruct (GoStrings.Index s (String c "")) as [i |] eqn:Hi; [| exact Hi].
    destruct (index_char_split c s i Hi) as [Hbefore Hcut].
    rewrite append_nil. apply index_char_append; [exact Hbefore |].
    change (String.length (String c "")) with 1%nat.
    apply IH.
    apply (f_equal String.length) in Hcut.
    rewrite !length_append in Hcut. cbn [String.length] in Hcut. lia.
Qed.

Lemma TrimSuffix_keeps_none (c : ascii) (s suffix : string) :
  GoStrings.Index s (String c "") = None ->
  GoStrings.Index (GoStrings.TrimSuffix s suffix) (String c "") = None.
Proof.
  intros Hs. unfold GoStrings.TrimSuffix.
  destruct (GoStrings.HasSuffix s suffix); [| exact Hs].
  apply index_char_take. exact Hs.
Qed.

(** The deployment segment of every model name is free of dots. *)
Lemma azureDeployment_no_dot (model : string) :
  GoStrings.Index (azureDeployment model) "." = None.
Proof.
  unfold azureDeployment. repeat apply TrimSuffix_keeps_none.
  apply ReplaceAll_from_removes. lia.
Qed.

(** ** strconv *)

Lemma Atoi_unsigned (d : Decimal.uint) :
  d <> Decimal.Nil ->
  GoStrconv.Atoi (NilEmpty.string_of_uint d)
  = (if Z.of_uint d >? GoInt.max_int then (GoInt.max_int, false)
     else (Z.of_uint d, true)).
Proof.
  intros Hd.
  assert (Hpos : 0 <= Z.of_uint d).
  { unfold Z.of_uint. lia. }
  assert (Hparse : NilEmpty.uint_of_string (NilEmpty.string_of_uint d) = Some d)
    by apply NilEmpty.usu.
  unfold GoStrconv.Atoi.
  destruct d; try contradiction; cbn [NilEmpty.string_of_uint] in *;
    rewrite Hparse;
    match goal with
    | |- context [Z.of_uint ?u <? GoInt.min_int] =>
        destruct (Z.ltb_spec (Z.of_uint u) GoInt.min_int) as [Hlt | _];
        [unfold GoInt.min_int in Hlt; lia | reflexivity]
    end.
Qed.

Lemma Atoi_negative (d : Decimal.uint) :
  d <> Decimal.Nil ->
  GoStrconv.Atoi (String "-" (NilEmpty.string_of_uint d))
  = (if - Z.of_uint d <? GoInt.min_int then (GoInt.min_int, false)
     else (- Z.of_uint d, true)).
Proof.
  intros Hd.
  assert (Hpos : 0 <= Z.of_uint d).
  { unfold Z.of_uint. lia. }
  assert (Hparse : NilEmpty.uint_of_string (NilEmpty.string_of_uint d) = Some d)
    by apply NilEmpty.usu.
  unfold GoStrconv.Atoi.
  destruct d; try contradiction; cbn [NilEmpty.string_of_uint] in *;
    rewrite Hparse;
    match goal with
    | |- context [- Z.of_uint ?u <? GoInt.min_int] =>
        destruct (Z.ltb_spec (- Z.of_uint u) GoInt.min_int) as [Hlt | _];
        [reflexivity |];
        destruct (Z.gtb_spec (- Z.of_uint u) GoInt.max_int) as [Hgt | _];
        [unfold GoInt.max_int in Hgt; lia | reflexivity]
    end.
Qed.

Lemma to_uint_not_nil (p : positive) : Pos.to_uint p <> Decimal.Nil.
Proof.
  intros Hnil. pose proof (DecimalPos.Unsigned.to_uint_nonnil p). contradiction.
Qed.

(** Reading back a printed integer. *)
Lemma Atoi_Itoa (n : Z) :
  GoInt.in_int n -> GoStrconv.Atoi (GoStrconv.Itoa n) = (n, true).
Proof.
  intros [Hlo Hhi]. unfold GoStrconv.Itoa.
  pose proof (DecimalZ.of_to n) as Hrt.
  destruct n as [| p | p]; cbn [Z.to_int] in *.
  - reflexivity.
  - cbn [Z.of_int] in Hrt.
    assert (Hnn := to_uint_not_nil p).
    cbn [NilZero.string_of_int]. unfold NilZero.string_of_uint.
    destruct (Pos.to_uint p) eqn:Hu; try contradiction;
      rewrite <- Hu in *; rewrite (Atoi_unsigned _ Hnn), Hrt;
      (destruct (Z.gtb_spec (Z.pos p) GoInt.max_int); [lia | reflexivity]).
  - cbn [Z.of_int] in Hrt.
    assert (Hnn := to_uint_not_nil p).
    cbn [NilZero.string_of_int]. unfold NilZero.string_of_uint.
    destruct (Pos.to_uint p) eqn:Hu; try contradiction;
      rewrite <- Hu in *; rewrite (Atoi_negative _ Hnn), Hrt;
      (destruct (Z.ltb_spec (Z.neg p) GoInt.min_int); [lia | reflexivity]).
Qed.

(** What Atoi returns is a Go int. *)
Lemma Atoi_in_int (s : string) : GoInt.in_int (fst (GoStrconv.Atoi s)).
Proof.
  unfold GoStrconv.Atoi, GoInt.in_int, GoInt.min_int, GoInt.max_int.
  destruct (match s with
            | String "-"%char r => (true, r)
            | String "+"%char r => (false, r)
            | _ => (false, s)
            end) as [negative digits].
  destruct digits as [| a digits]; [simpl; lia |].
  destruct (NilEmpty.uint_of_string (String a digits)) as [u |]; [| simpl; lia].
  set (n := if negative then - Z.of_uint u else Z.of_uint u).
  destruct (Z.ltb_spec n (- 2 ^ 63)); [simpl; lia |].
  destruct (Z.gtb_spec n (2 ^ 63 - 1)); simpl; lia.
Qed.

(** ** The retry of the controller *)

Section RelayFacts.
Context `{RelayPkg}.

Lemma retryCounter_in_int (c : GinContext) :
  GoInt.in_int RetryTimes -> GoInt.in_int (retryCounter c).
Proof.
  intros Hcfg. unfold retryCounter.
  destruct (String.eqb (ctxQuery c "retry") ""); [exact Hcfg |].
  apply Atoi_in_int.
Qed.

(** Where the counter comes from: the configured number of retries when
    the request has no retry parameter (or an empty one), else the number
    the parameter spells. *)
Lemma retryCounter_source (c : GinContext) :
  (ctxQuery c "retry" = "" -> retryCounter c = RetryTimes)
  /\ (forall n, GoInt.in_int n -> ctxQuery c "retry" = GoStrconv.Itoa n ->
      retryCounter c = n).
Proof.
  unfold retryCounter. split.
  - intros ->. reflexivity.
  - intros n Hn Hq. rewrite Hq, (Atoi_Itoa n Hn).
    destruct (String.eqb_spec (GoStrconv.Itoa n) "") as [He | _];
      [| reflexivity].
    pose proof (Atoi_Itoa n Hn) as Hrt. rewrite He in Hrt. discriminate.
Qed.

(** C9: when the relay helper returns an error, a counter above 0 makes
    the controller answer with the redirect 307 to the path of the request
    with the query retry set to the counter less one; only a counter of 0
    or below makes it answer with the JSON error, under the status of the
    error, its message extended with the request id.  The counter is the
    configured number of retries when the request has no retry parameter,
    else the number the parameter spells. *)
Theorem relay_error_retries (c : GinContext) (err : OpenAIErrorWithStatusCode) :
  relayHelper c = Some err ->
  GoInt.in_int RetryTimes ->
  (retryCounter c > 0 ->
   response (Relay c)
   = Some (Redirect 307
             (URLPath c +:+ "?retry=" +:+ GoStrconv.Itoa (retryCounter c - 1))))
  /\ (retryCounter c <= 0 ->
      response (Relay c)
      = Some (JSON (StatusCode err)
                {| Message :=
                     MessageWithRequestId (Message (Error err))
                       (GetString c RequestIdKey);
                   Type_ := Type_ (Error err);
                   Param := Param (Error err);
                   Code := Code (Error err) |}))
  /\ (ctxQuery c "retry" = "" -> retryCounter c = RetryTimes)
  /\ (forall n, GoInt.in_int n -> ctxQuery c "retry" = GoStrconv.Itoa n ->
      retryCounter c = n).
Proof.
  intros Herr Hcfg.
  pose proof (retryCounter_in_int c Hcfg) as Hin.
  pose proof (retryCounter_source c) as [Hdefault Hparam].
  repeat split; try assumption.
  - intros Hpos. unfold Relay. rewrite Herr.
    destruct (Z.gtb_spec (retryCounter c) 0) as [_ | Hle]; [| lia].
    cbn [response]. unfold GoInt.sub. rewrite wrap_in_int; [reflexivity |].
    unfold GoInt.in_int, GoInt.min_int, GoInt.max_int in *. lia.
  - intros Hle. unfold Relay. rewrite Herr.
    destruct (Z.gtb_spec (retryCounter c) 0) as [Hpos | _]; [lia |].
    reflexivity.
Qed.

End RelayFacts.


(** A failed chat request with retry=2 is sent back with retry=1. *)
Lemma relay_error_retries_witness :
  response (@Relay exampleRelay (retryContext (Some "2")))
  = Some (Redirect 307 "/v1/chat/completions?retry=1").
Proof.
  destruct (@relay_error_retries exampleRelay (retryContext (Some "2"))
              upstreamBusy eq_refl
              ltac:(unfold GoInt.in_int, GoInt.min_int, GoInt.max_int;
                    simpl; lia)) as [Hretry _].
  rewrite Hretry; [vm_compute; reflexivity | vm_compute; reflexivity].
Defined.

(** The chain of redirects of a request without the parameter: 3
    configured retries give retry=2, 1, 0, and the request with retry=0
    gets the error with the request id. *)
Lemma relay_retry_chain :
  response (@Relay exampleRelay (retryContext None))
  = Some (Redirect 307 "/v1/chat/completions?retry=2")
  /\ response (@Relay exampleRelay (retryContext (Some "1")))
     = Some (Redirect 307 "/v1/chat/completions?retry=0")
  /\ response (@Relay exampleRelay (retryContext (Some "0")))
     = Some (JSON 429
               {| Message := "upstream is busy (request id: 20240101)";
                  Type_ := "upstream_error"; Param := "";
                  Code := "rate_limit" |}).
Proof. vm_compute. repeat split; reflexivity. Qed.

(** ** The stream handler *)

Section StreamFacts.
Context `{JsonPkg} (cfg : SensitiveConfig) (relayMode : RelayMode)
  (lines : list string).


Lemma streamInvariant_init :
  streamInvariant cfg relayMode lines
    {| producer := Scanning lines; streamItems := []; dataChan := [];
       stopChan := []; responseText := ""; client := []; streaming := true |}.
Proof.
  unfold streamInvariant. cbn.
  split; [reflexivity |].
  split; [reflexivity |].
  split; [intros _; repeat split; reflexivity |].
  intros [Hs | Hs]; [contradiction | discriminate].
Qed.

Lemma sendData_invariant (s s' : StreamState) (frame : string)
    (items : list string) (next : Producer) :
  streamInvariant cfg relayMode lines s ->
  producer s <> Finished ->
  next <> Finished ->
  framesAhead cfg (producer s) = frame :: framesAhead cfg next ->
  itemsAhead cfg (producer s) = (items ++ itemsAhead cfg next)%list ->
  sendData s frame items next = Some s' ->
  streamInvariant cfg relayMode lines s'.
Proof.
  intros (Hframes & Hitems & Hearly & Hstop) Hnf Hnext Hf Hi Hsend.
  unfold sendData in Hsend.
  destruct (length (dataChan s) <? dataChanCap)%nat; [| discriminate].
  injection Hsend as <-. unfold streamInvariant. cbn.
  destruct (Hearly Hnf) as (Hsc & Hst & Hrt).
  split; [rewrite <- Hframes, Hf, <- !app_assoc; reflexivity |].
  split; [rewrite <- Hitems, Hi, <- !app_assoc; reflexivity |].
  split; [intros _; repeat split; assumption |].
  intros [Hs | Hs]; [rewrite Hsc in Hs; contradiction |
                     rewrite Hst in Hs; discriminate].
Qed.

Lemma setProducer_invariant (s : StreamState) (next : Producer) :
  streamInvariant cfg relayMode lines s ->
  producer s <> Finished ->
  next <> Finished ->
  framesAhead cfg (producer s) = framesAhead cfg next ->
  itemsAhead cfg (producer s) = itemsAhead cfg next ->
  streamInvariant cfg relayMode lines (setProducer s next).
Proof.
  intros (Hframes & Hitems & Hearly & Hstop) Hnf Hnext Hf Hi.
  unfold streamInvariant. cbn.
  destruct (Hearly Hnf) as (Hsc & Hst & Hrt).
  split; [rewrite <- Hframes, Hf; reflexivity |].
  split; [rewrite <- Hitems, Hi; reflexivity |].
  split; [intros _; repeat split; assumption |].
  intros [Hs | Hs]; [rewrite Hsc in Hs; contradiction |
                     rewrite Hst in Hs; discriminate].
Qed.

Lemma produce_invariant (s s' : StreamState) :
  streamInvariant cfg relayMode lines s ->
  produce cfg relayMode s = Some s' ->
  streamInvariant cfg relayMode lines s'.
Proof.
  intros Hinv Hstep. unfold produce in Hstep.
  destruct (producer s) as [pending | | | |] eqn:Hp.
  - destruct pending as [| data pending].
    + injection Hstep as <-.
      apply setProducer_invariant; rewrite ?Hp; try discriminate;
        try reflexivity; exact Hinv.
    + destruct (handleLine cfg data) as [| frame item stop | frame |] eqn:Hl.
      * injection Hstep as <-.
        apply setProducer_invariant; rewrite ?Hp; try discriminate;
          try exact Hinv; cbn; rewrite Hl; reflexivity.
      * eapply sendData_invariant; [exact Hinv | | | | | exact Hstep];
          rewrite ?Hp; try discriminate.
        -- destruct stop; discriminate.
        -- cbn. rewrite Hl. destruct stop; reflexivity.
        -- cbn. rewrite Hl. destruct stop; reflexivity.
      * eapply sendData_invariant; [exact Hinv | | | | | exact Hstep];
          rewrite ?Hp; try discriminate; cbn; rewrite Hl; reflexivity.
      * injection Hstep as <-.
        apply setProducer_invariant; rewrite ?Hp; try discriminate;
          try exact Hinv; cbn; rewrite Hl; reflexivity.
  - eapply sendData_invariant; [exact Hinv | | | | | exact Hstep];
      rewrite ?Hp; try discriminate; reflexivity.
  - destruct Hinv as (Hframes & Hitems & Hearly & Hstop).
    assert (Hnf : producer s <> Finished) by (rewrite Hp; discriminate).
    destruct (Hearly Hnf) as (Hsc & Hst & Hrt).
    rewrite Hp in Hframes, Hitems. cbn in Hframes, Hitems.
    rewrite app_nil_r in Hitems.
    destruct (aggregateText relayMode (streamItems s)) as [text |] eqn:Hagg.
    + injection Hstep as <-. unfold streamInvariant. cbn.
      split; [exact Hframes |].
      split; [rewrite app_nil_r; exact Hitems |].
      split; [intros Hc; contradiction |].
      intros _. rewrite <- Hitems, Hagg, Hrt. reflexivity.
    + injection Hstep as <-. unfold streamInvariant. cbn.
      split; [exact Hframes |].
      split; [rewrite app_nil_r; exact Hitems |].
      split; [intros Hc; contradiction |].
      intros [Hs | Hs]; [rewrite Hsc in Hs; contradiction |
                         rewrite Hst in Hs; discriminate].
  - discriminate.
  - discriminate.
Qed.

Lemma step_invariant (a : Action) (s s' : StreamState) :
  streamInvariant cfg relayMode lines s ->
  step cfg relayMode a s = Some s' ->
  streamInvariant cfg relayMode lines s'.
Proof.
  intros Hinv Hstep.
  assert (Hact : match a with
                 | Produce => produce cfg relayMode s
                 | ReceiveData => receiveData s
                 | ReceiveStop => receiveStop s
                 end = Some s').
  { unfold step in Hstep. destruct (producer s); try exact Hstep.
    discriminate. }
  clear Hstep. destruct a.
  - exact (produce_invariant s s' Hinv Hact).
  - unfold receiveData in Hact.
    destruct (streaming s) eqn:Hst; [| discriminate].
    destruct (dataChan s) as [| data rest] eqn:Hd; [discriminate |].
    injection Hact as <-.
    destruct Hinv as (Hframes & Hitems & Hearly & Hstop).
    unfold streamInvariant. cbn.
    split; [rewrite <- Hframes, Hd, <- app_assoc; reflexivity |].
    split; [exact Hitems |].
    split.
    + intros Hnf. destruct (Hearly Hnf) as (Hsc & _ & Hrt).
      repeat split; assumption.
    + intros [Hs | Hs]; [| discriminate]. apply Hstop. left. exact Hs.
  - unfold receiveStop in Hact.
    destruct (streaming s) eqn:Hst; [| discriminate].
    destruct (stopChan s) as [| b rest] eqn:Hs; [discriminate |].
    injection Hact as <-.
    destruct Hinv as (Hframes & Hitems & Hearly & Hstop).
    unfold streamInvariant. cbn.
    split; [exact Hframes |].
    split; [exact Hitems |].
    split.
    + intros Hnf. destruct (Hearly Hnf) as (Hsc & _). rewrite Hs in Hsc.
      discriminate.
    + intros _. apply Hstop. left. rewrite Hs. discriminate.
Qed.

Lemma run_invariant (schedule : list Action) (s s' : StreamState) :
  streamInvariant cfg relayMode lines s ->
  run cfg relayMode schedule s = Some s' ->
  streamInvariant cfg relayMode lines s'.
Proof.
  revert s. induction schedule as [| a schedule IH]; intros s Hinv Hrun.
  - injection Hrun as <-. exact Hinv.
  - cbn [run] in Hrun.
    destruct (step cfg relayMode a s) as [s1 |] eqn:Hstep; [| discriminate].
    exact (IH s1 (step_invariant a s s1 Hinv Hstep) Hrun).
Qed.

End StreamFacts.

(** With completion-side checking off, or no phrase configured, the
    reading loop treats a line as under the plain configuration. *)
Lemma handleLine_inactive (cfg : SensitiveConfig) (data : string) :
  CheckCompletionSensitive cfg = false \/ ConfiguredWords cfg = [] ->
  handleLine cfg data = handleLine plainConfig data.
Proof.
  intros Hoff. unfold handleLine.
  destruct (GoStrings.len data <? 6); [reflexivity |].
  destruct (negb (String.eqb (GoStrings.take 6 data) "data: ")
            && negb (String.eqb (GoStrings.take 6 data) "[DONE]"));
    [reflexivity |].
  assert (Hchecked :
            (if CheckCompletionSensitive cfg
             then
               match SensitiveWordReplace (ConfiguredWords cfg) data false with
               | Some (sensitive, _, data0) => Some (sensitive, data0)
               | None => None
               end
             else Some (false, data)) = Some (false, data)).
  { destruct Hoff as [-> | ->]; [reflexivity |].
    destruct (CheckCompletionSensitive cfg); reflexivity. }
  rewrite Hchecked. cbn [CheckCompletionSensitive plainConfig].
  destruct (GoStrings.slice_from _ 6); reflexivity.
Qed.





Section StreamRuns.
Context `{JsonPkg}.

Lemma step_inactive (cfg : SensitiveConfig) (relayMode : RelayMode)
    (a : Action) (s : StreamState) :
  CheckCompletionSensitive cfg = false \/ ConfiguredWords cfg = [] ->
  step cfg relayMode a s = step plainConfig relayMode a s.
Proof.
  intros Hoff. unfold step, produce.
  destruct (producer s) as [[| data pending] | | | |]; try reflexivity.
  destruct a; try reflexivity.
  rewrite (handleLine_inactive cfg data Hoff). reflexivity.
Qed.

Lemma run_inactive (cfg : SensitiveConfig) (relayMode : RelayMode)
    (schedule : list Action) (s : StreamState) :
  CheckCompletionSensitive cfg = false \/ ConfiguredWords cfg = [] ->
  run cfg relayMode schedule s = run plainConfig relayMode schedule s.
Proof.
  intros Hoff. revert s.
  induction schedule as [| a schedule IH]; intros s; [reflexivity |].
  cbn [run]. rewrite (step_inactive cfg relayMode a s Hoff).
  destruct (step plainConfig relayMode a s); [apply IH | reflexivity].
Qed.


(** The order of the hand-off: whatever the stream, the configuration and
    the schedule, the events of the client are the first frames the
    producer sends, in their order. *)
Lemma stream_frames_in_order (cfg : SensitiveConfig) (relayMode : RelayMode)
    (body : string) (schedule : list Action) (s : StreamState) :
  run cfg relayMode schedule (initStream body) = Some s ->
  exists rest,
    map renderFrame (framesOf cfg (scanLines body)) = (client s ++ rest)%list.
Proof.
  intros Hrun.
  assert (Hinv : streamInvariant cfg relayMode (scanLines body) s).
  { eapply run_invariant; [| exact Hrun]. apply streamInvariant_init. }
  destruct Hinv as (Hframes & _). eexists. symmetry. exact Hframes.
Qed.

(** In a stopped handler the producer is done. *)
Lemma stopped_producer_finished (cfg : SensitiveConfig)
    (relayMode : RelayMode) (lines : list string) (s : StreamState) :
  streamInvariant cfg relayMode lines s ->
  streaming s = false ->
  producer s = Finished.
Proof.
  intros (_ & _ & Hearly & _) Hstopped.
  destruct (producer s) eqn:Hp; try reflexivity;
    (destruct Hearly as (_ & Hst & _); [discriminate |];
     rewrite Hstopped in Hst; discriminate).
Qed.


End StreamRuns.



(** The hand-off is drained by time only: when the select of the consumer
    takes the stop signal while the three frames are still in the channel
    (it reached the select later than the sleep of the producer lasts), the
    handler returns the text and the client has received nothing. *)
Lemma stream_stop_overtakes_frames :
  let final :=
    @run exampleJson plainConfig RelayModeChatCompletions (producerFirst 8 0)
      (initStream hiThereBody) in
  option_map responseText final = Some "Hi there"
  /\ option_map client final = Some []
  /\ option_map dataChan final = Some [frameHi; frameThere; frameDone]
  /\ option_map streaming final = Some false.
Proof. vm_compute. repeat split; reflexivity. Qed.

(** ** More on the stream handler *)

Section StreamMore.
Context `{JsonPkg} (cfg : SensitiveConfig) (relayMode : RelayMode).



(** When the handler has returned, the producer is done, it has kept the
    items of every line of the body, and the text returned is the one
    aggregated from all of them: the text is never read before it is
    complete. *)
Theorem stream_return_text (body : string) (schedule : list Action)
    (s : StreamState) :
  run cfg relayMode schedule (initStream body) = Some s ->
  streaming s = false ->
  producer s = Finished
  /\ streamItems s = itemsOf cfg (scanLines body)
  /\ aggregateText relayMode (itemsOf cfg (scanLines body))
     = Some (responseText s).
Proof.
  intros Hrun Hstopped.
  assert (Hinv : streamInvariant cfg relayMode (scanLines body) s).
  { eapply run_invariant; [| exact Hrun]. apply streamInvariant_init. }
  pose proof (stopped_producer_finished _ _ _ _ Hinv Hstopped) as Hfin.
  destruct Hinv as (_ & Hitems & _ & Hstop).
  rewrite Hfin in Hitems. cbn [itemsAhead] in Hitems.
  rewrite app_nil_r in Hitems.
  split; [exact Hfin |]. split; [exact Hitems |].
  apply Hstop. right. exact Hstopped.
Qed.

(** When the items of the body do not unmarshal, the stop signal is never
    sent: under no schedule does the handler return. *)
Theorem stream_unmarshal_failure_hangs (body : string)
    (schedule : list Action) (s : StreamState) :
  aggregateText relayMode (itemsOf cfg (scanLines body)) = None ->
  run cfg relayMode schedule (initStream body) = Some s ->
  streaming s = true /\ stopChan s = [].
Proof.
  intros Hfail Hrun.
  assert (Hinv : streamInvariant cfg relayMode (scanLines body) s).
  { eapply run_invariant; [| exact Hrun]. apply streamInvariant_init. }
  destruct Hinv as (_ & _ & _ & Hstop). rewrite Hfail in Hstop.
  split.
  - destruct (streaming s) eqn:Hst; [reflexivity |].
    specialize (Hstop (or_intror eq_refl)). discriminate.
  - destruct (stopChan s) as [| b rest] eqn:Hs; [reflexivity |].
    assert (Hne : b :: rest <> []) by discriminate.
    specialize (Hstop (or_introl Hne)). discriminate.
Qed.

(** Two configurations under which the filter is off, or has no phrase,
    run alike: the stop-on-sensitive switch has no effect by itself. *)
Theorem stream_filter_off (cfg1 cfg2 : SensitiveConfig)
    (schedule : list Action) (s : StreamState) :
  CheckCompletionSensitive cfg1 = false \/ ConfiguredWords cfg1 = [] ->
  CheckCompletionSensitive cfg2 = false \/ ConfiguredWords cfg2 = [] ->
  run cfg1 relayMode schedule s = run cfg2 relayMode schedule s.
Proof.
  intros H1 H2.
  rewrite (run_inactive cfg1 relayMode schedule s H1).
  rewrite (run_inactive cfg2 relayMode schedule s H2). reflexivity.
Qed.

End StreamMore.

Lemma stream_frames_in_order_witness :
  exists rest,
    map renderFrame (framesOf plainConfig (scanLines hiThereBody))
    = ([frameHi] ++ rest)%list.
Proof.
  exact (@stream_frames_in_order exampleJson plainConfig
           RelayModeChatCompletions hiThereBody (producerFirst 8 1)
           {| producer := Finished;
              streamItems := [chunkJson "Hi"; chunkJson " there"];
              dataChan := [frameThere; frameDone];
              stopChan := [];
              responseText := "Hi there";
              client := [frameHi];
              streaming := false |} eq_refl).
Defined.


Lemma stream_return_text_witness :
  Finished = Finished
  /\ [chunkJson "Hi"; chunkJson " there"]
     = itemsOf plainConfig (scanLines hiThereBody)
  /\ @aggregateText exampleJson RelayModeChatCompletions
       (itemsOf plainConfig (scanLines hiThereBody))
     = Some "Hi there".
Proof.
  exact (@stream_return_text exampleJson plainConfig
           RelayModeChatCompletions hiThereBody (producerFirst 8 1)
           {| producer := Finished;
              streamItems := [chunkJson "Hi"; chunkJson " there"];
              dataChan := [frameThere; frameDone];
              stopChan := [];
              responseText := "Hi there";
              client := [frameHi];
              streaming := false |} eq_refl eq_refl).
Defined.

(** A body whose one event is not JSON: the producer finishes, the
    consumer takes the frame, and the handler is still streaming. *)
Lemma stream_unmarshal_failure_hangs_witness :
  true = true /\ @nil bool = [].
Proof.
  exact (@stream_unmarshal_failure_hangs exampleJson plainConfig
           RelayModeChatCompletions ("data: {oops" +:+ lf)
           [Produce; Produce; Produce; ReceiveData]
           {| producer := Finished;
              streamItems := ["{oops"];
              dataChan := [];
              stopChan := [];
              responseText := "";
              client := ["data: {oops"];
              streaming := true |} eq_refl eq_refl).
Defined.

Lemma stream_filter_off_witness :
  @run exampleJson
    {| CheckCompletionSensitive := true; StopOnSensitiveEnabled := true;
       ConfiguredWords := [] |}
    RelayModeChatCompletions (producerFirst 8 3) (initStream hiThereBody)
  = @run exampleJson plainConfig RelayModeChatCompletions (producerFirst 8 3)
      (initStream hiThereBody).
Proof.
  exact (@stream_filter_off exampleJson RelayModeChatCompletions
           {| CheckCompletionSensitive := true; StopOnSensitiveEnabled := true;
              ConfiguredWords := [] |} plainConfig (producerFirst 8 3)
           (initStream hiThereBody) (or_intror eq_refl) (or_introl eq_refl)).
Defined.

(** ** More on the Azure request URL and the reservation *)

Section AzureMore.
Context `{RelayCommonPkg}.

(** The request URL of an Azure channel for every model, path and
    version: the deployment derived from the model, then the path cut at
    its first question mark and freed of the prefix /v1/, then the
    api-version parameter; the query string of the request never reaches
    the upstream URL.  Any other channel passes the path as it is, query
    string included. *)
Theorem azure_request_url_any_model (info : RelayInfo) :
  let path := hd "" (GoStrings.Split (RequestURLPath info) "?") in
  GoStrings.Index path "?" = None
  /\ (RequestURLPath info = path
      \/ exists query, RequestURLPath info = path +:+ "?" +:+ query)
  /\ GetRequestURL info
     = if ChannelType info =? ChannelTypeAzure then
         GetFullRequestURL (BaseUrl info)
           ("/openai/deployments/" +:+ azureDeployment (UpstreamModelName info)
            +:+ "/" +:+ GoStrings.TrimPrefix path "/v1/"
            +:+ "?api-version=" +:+ ApiVersion info)
           (ChannelType info)
       else
         GetFullRequestURL (BaseUrl info) (RequestURLPath info)
           (ChannelType info).
Proof.
  intros path.
  destruct (split_char_head "?" (RequestURLPath info)) as [Hnone Hcut].
  fold path in Hnone, Hcut.
  split; [exact Hnone |]. split; [exact Hcut |].
  unfold GetRequestURL.
  destruct (ChannelType info =? ChannelTypeAzure); [| reflexivity].
  fold path.
  change ("?api-version=" +:+ ApiVersion info)
    with (String "?" ("api-version=" +:+ ApiVersion info)).
  rewrite (TrimPrefix_append_char "/v1/" path "?" _ eq_refl).
  reflexivity.
Qed.

End AzureMore.

Section PreConsumeMore.
Context `{ServicePkg} {St : Type} `{LedgerStore St}.

(** A reservation of an amount that is not negative, when it succeeds,
    reserves nothing or the whole request, never a part of it, and only
    on a positive account balance that covers the request. *)
Theorem preConsumeQuota_all_or_nothing (c : GinContext) (amt : Z)
    (info : RelayInfo) (s s' : St) (reserved userQuota : Z) :
  GoInt.in_int amt -> 0 <= amt ->
  preConsumeQuota c amt info s = (s', inr (reserved, userQuota)) ->
  exists uq,
    CacheGetUserQuota (UserId info) s = inr uq
    /\ 0 < uq
    /\ (GoInt.in_int uq -> amt <= uq)
    /\ (reserved = 0 \/ (reserved = amt /\ 0 < amt)).
Proof.
  intros Hamt Hnn Hrun. unfold preConsumeQuota in Hrun.
  destruct (CacheGetUserQuota (UserId info) s) as [err | uq] eqn:Hget;
    [discriminate |].
  exists uq. split; [reflexivity |].
  destruct (Z.leb_spec uq 0) as [Hle | Hpos]; [discriminate |].
  destruct (Z.ltb_spec (GoInt.sub uq amt) 0) as [Hlt | Hge]; [discriminate |].
  cbn [orb] in Hrun.
  split; [exact Hpos |]. split.
  - intros Huq. unfold GoInt.sub in Hge.
    destruct (Z.le_gt_cases amt uq) as [Hok | Hbad]; [exact Hok |].
    rewrite wrap_in_int in Hge; [lia |].
    unfold GoInt.in_int, GoInt.min_int, GoInt.max_int in *. lia.
  - destruct (CacheDecreaseUserQuota (UserId info) amt s) as [s1 [err |]];
      [discriminate |].
    assert (Htrust : trustedAmount c info uq amt = 0
                     \/ trustedAmount c info uq amt = amt).
    { unfold trustedAmount.
      destruct (uq >? GoInt.mul 100 amt); [| right; reflexivity].
      destruct (negb (TokenUnlimited info)); [| left; reflexivity].
      destruct (GetInt c "token_quota" >? GoInt.mul 100 amt);
        [left | right]; reflexivity. }
    destruct (Z.gtb_spec (trustedAmount c info uq amt) 0) as [Hgt | Hle].
    + destruct (PreConsumeTokenQuota (TokenId info)
                  (trustedAmount c info uq amt) s1) as [s2 [err | uq']];
        [discriminate |].
      injection Hrun as _ <- _.
      destruct Htrust as [Ht | Ht]; rewrite Ht in *; [lia |].
      right. split; [reflexivity | lia].
    + injection Hrun as _ <- _.
      destruct Htrust as [Ht | Ht]; rewrite Ht in *; [left; reflexivity |].
      left. lia.
Qed.

(** Outside the trust path (a balance of at most 100 times the request)
    the whole request is reserved against the credential after the
    account balance was decremented; when the credential reservation
    fails, the error is pre_consume_token_quota_failed with status 403
    and the store is the one the two store calls leave: the decrement of
    the account is not taken back. *)
Theorem preConsumeQuota_full_reservation (c : GinContext) (amt : Z)
    (info : RelayInfo) (s : St) (uq : Z) :
  CacheGetUserQuota (UserId info) s = inr uq ->
  GoInt.in_int uq -> 0 < amt -> amt <= uq -> uq <= 100 * amt ->
  100 * amt <= GoInt.max_int ->
  let s1 := fst (CacheDecreaseUserQuota (UserId info) amt s) in
  let s2 := fst (PreConsumeTokenQuota (TokenId info) amt s1) in
  preConsumeQuota c amt info s
  = match snd (CacheDecreaseUserQuota (UserId info) amt s) with
    | Some err =>
        (s1, inl (OpenAIErrorWrapper err "decrease_user_quota_failed"
                    StatusInternalServerError))
    | None =>
        match snd (PreConsumeTokenQuota (TokenId info) amt s1) with
        | inl err =>
            (s2, inl (OpenAIErrorWrapper err "pre_consume_token_quota_failed"
                        StatusForbidden))
        | inr userQuota => (s2, inr (amt, userQuota))
        end
    end.
Proof.
  intros Hget Huq Hpos Hcover Hsmall Hmax s1 s2. unfold preConsumeQuota.
  rewrite Hget.
  assert (Hsub : GoInt.sub uq amt = uq - amt).
  { apply wrap_in_int.
    unfold GoInt.in_int, GoInt.min_int, GoInt.max_int in *. lia. }
  rewrite Hsub.
  destruct (Z.leb_spec uq 0) as [Hle | _]; [lia |].
  destruct (Z.ltb_spec (uq - amt) 0) as [Hlt | _]; [lia |].
  cbn [orb]. subst s2 s1.
  destruct (CacheDecreaseUserQuota (UserId info) amt s) as [s1 [err |]];
    [reflexivity |].
  cbn [fst snd].
  assert (Htrust : trustedAmount c info uq amt = amt).
  { unfold trustedAmount, GoInt.mul. rewrite wrap_in_int.
    - destruct (Z.gtb_spec uq (100 * amt)); [lia | reflexivity].
    - unfold GoInt.in_int, GoInt.min_int, GoInt.max_int in *. lia. }
  rewrite Htrust.
  destruct (Z.gtb_spec amt 0) as [_ | Hle]; [| lia].
  destruct (PreConsumeTokenQuota (TokenId info) amt s1) as [s2 [err | uq']];
    reflexivity.
Qed.

End PreConsumeMore.

(** A request of 100 on a balance of 1,000,000 with a credential of
    10,000: the whole request is reserved. *)
Lemma preConsumeQuota_all_or_nothing_witness :
  exists uq,
    CacheGetUserQuota 1 (exampleStore 1000000 10000) = inr uq
    /\ 0 < uq
    /\ (GoInt.in_int uq -> 100 <= uq)
    /\ (100 = 0 \/ (100 = 100 /\ 0 < 100)).
Proof.
  exact (preConsumeQuota_all_or_nothing (exampleContext 10000) 100
           (exampleInfo false) (exampleStore 1000000 10000)
           (fst (preConsumeQuota (exampleContext 10000) 100 (exampleInfo false)
                   (exampleStore 1000000 10000)))
           100 999900
           ltac:(unfold GoInt.in_int, GoInt.min_int, GoInt.max_int; lia)
           ltac:(lia) eq_refl).
Defined.

(** A request of 500 on a balance of 20,000 with a credential of 100: the
    credential refuses, and the account is left at 19,500. *)
Lemma preConsumeQuota_full_reservation_witness :
  preConsumeQuota (exampleContext 100) 500 (exampleInfo false)
    (exampleStore 20000 100)
  = (fst (CacheDecreaseUserQuota 1 500 (exampleStore 20000 100)),
     inl (OpenAIErrorWrapper "token quota is not enough"
            "pre_consume_token_quota_failed" StatusForbidden)).
Proof.
  exact (preConsumeQuota_full_reservation (exampleContext 100) 500
           (exampleInfo false) (exampleStore 20000 100) 20000 eq_refl
           ltac:(unfold GoInt.in_int, GoInt.min_int, GoInt.max_int; lia)
           ltac:(lia) ltac:(lia) ltac:(lia)
           ltac:(unfold GoInt.max_int; lia)).
Defined.

(** ** More on the controller *)

Lemma append_assoc (a b c : string) : (a +:+ b) +:+ c = a +:+ (b +:+ c).
Proof.
  induction a as [| x a IH]; [reflexivity |].
  rewrite !append_cons, IH. reflexivity.
Qed.

Lemma TrimPrefix_own_prefix (p s : string) : GoStrings.TrimPrefix (p +:+ s) p = s.
Proof.
  unfold GoStrings.TrimPrefix, GoStrings.HasPrefix.
  assert (Hp : String.prefix p (p +:+ s) = true).
  { induction p as [| a p IH]; [apply prefix_nil |].
    rewrite append_cons, prefix_cons.
    destruct (ascii_dec a a); [exact IH | contradiction]. }
  rewrite Hp. clear Hp. induction p as [| a p IH]; [apply drop_zero |].
  rewrite append_cons. cbn [String.length]. rewrite drop_cons. apply IH.
Qed.

Lemma failingRelay_fails (err : OpenAIErrorWithStatusCode) (c : GinContext) :
  @relayHelper (failingRelay err) c = Some err.
Proof.
  unfold relayHelper. cbn [Path2RelayMode failingRelay].
  destruct (examplePath2RelayMode (URLPath c)); reflexivity.
Qed.

Section RelayMore.
Context `{RelayPkg}.

Lemma ctxQuery_setRetryQuery (c : GinContext) (v : string) :
  ctxQuery (setRetryQuery c v) "retry" = v.
Proof.
  unfold ctxQuery, setRetryQuery. cbn [QueryArgs].
  rewrite lookup_insert_eq. reflexivity.
Qed.

(** Without the key auto_ban (or with it false) no channel is disabled,
    whatever the helper returns and whatever the error is. *)
Theorem relay_keeps_channel_without_auto_ban (c : GinContext) :
  GetBool c "auto_ban" = false -> disabled (Relay c) = None.
Proof.
  intros Hban. unfold Relay.
  destruct (relayHelper c) as [err |]; [| reflexivity].
  destruct (retryCounter c >? 0); cbn [disabled]; rewrite Hban;
    rewrite andb_false_r; reflexivity.
Qed.

(** A failed attempt that is answered by the redirect disables the
    channel all the same, with the message as the helper returned it
    (the request id is added only for the final JSON answer). *)
Theorem relay_redirect_disables_channel (c : GinContext)
    (err : OpenAIErrorWithStatusCode) :
  relayHelper c = Some err ->
  GetBool c "auto_ban" = true ->
  ShouldDisableChannel (Error err) (StatusCode err) = true ->
  retryCounter c > 0 ->
  Relay c
  = {| response :=
         Some (Redirect 307
                 (URLPath c +:+ "?retry="
                  +:+ GoStrconv.Itoa (GoInt.sub (retryCounter c) 1)));
       disabled :=
         Some (GetInt c "channel_id", GetString c "channel_name",
               Message (Error err)) |}.
Proof.
  intros Herr Hban Hbad Hpos. unfold Relay. rewrite Herr.
  destruct (Z.gtb_spec (retryCounter c) 0) as [_ | Hle]; [| lia].
  rewrite Hbad, Hban. reflexivity.
Qed.

(** The redirects end: when every attempt fails, a client that starts
    with the retry parameter k and follows the redirects gets exactly k
    redirects, to retry = k-1, ..., 0 in this order, and then the JSON
    error with the request id. *)
Theorem relay_redirects_end (err : OpenAIErrorWithStatusCode) (k : nat) :
  (forall c, relayHelper c = Some err) ->
  GoInt.in_int (Z.of_nat k) ->
  forall (c : GinContext) (fuel : nat),
    ctxQuery c "retry" = GoStrconv.Itoa (Z.of_nat k) ->
    (k < fuel)%nat ->
    attempts fuel c
    = (map (fun j : nat =>
              Redirect 307
                (URLPath c +:+ "?retry=" +:+ GoStrconv.Itoa (Z.of_nat j)))
         (rev (seq 0 k))
       ++ [JSON (StatusCode err)
             {| Message :=
                  MessageWithRequestId (Message (Error err))
                    (GetString c RequestIdKey);
                Type_ := Type_ (Error err);
                Param := Param (Error err);
                Code := Code (Error err) |}])%list.
Proof.
  intros Hfail. induction k as [| k IH]; intros Hk c fuel Hq Hfuel.
  - destruct fuel as [| fuel]; [lia |].
    assert (Hc : retryCounter c = 0).
    { apply (proj2 (retryCounter_source c) 0); [| exact Hq].
      unfold GoInt.in_int, GoInt.min_int, GoInt.max_int. lia. }
    cbn [attempts seq rev map app]. unfold Relay.
    rewrite (Hfail c), Hc. reflexivity.
  - destruct fuel as [| fuel]; [lia |].
    assert (Hc : retryCounter c = Z.of_nat (S k)).
    { apply (proj2 (retryCounter_source c) (Z.of_nat (S k))); assumption. }
    assert (Hk' : GoInt.in_int (Z.of_nat k)).
    { unfold GoInt.in_int, GoInt.min_int, GoInt.max_int in *. lia. }
    assert (Hsub : GoInt.sub (Z.of_nat (S k)) 1 = Z.of_nat k).
    { unfold GoInt.sub. rewrite wrap_in_int; [lia |].
      unfold GoInt.in_int, GoInt.min_int, GoInt.max_int in *. lia. }
    cbn [attempts]. unfold Relay at 1. rewrite (Hfail c), Hc.
    destruct (Z.gtb_spec (Z.of_nat (S k)) 0) as [_ | Hle]; [| lia].
    cbn [response]. rewrite Hsub.
    assert (Hnext : followRedirect c
                      (URLPath c +:+ "?retry=" +:+ GoStrconv.Itoa (Z.of_nat k))
                    = setRetryQuery c (GoStrconv.Itoa (Z.of_nat k))).
    { unfold followRedirect. rewrite <- append_assoc, TrimPrefix_own_prefix.
      reflexivity. }
    rewrite Hnext.
    rewrite (IH Hk' (setRetryQuery c (GoStrconv.Itoa (Z.of_nat k))) fuel
               (ctxQuery_setRetryQuery c _) ltac:(lia)).
    rewrite seq_S, rev_app_distr. reflexivity.
Qed.

End RelayMore.

(** A failed chat request without the key auto_ban. *)
Lemma relay_keeps_channel_without_auto_ban_witness :
  disabled (@Relay (failingRelay invalidKey) (retryContext (Some "2"))) = None.
Proof.
  exact (@relay_keeps_channel_without_auto_ban (failingRelay invalidKey)
           (retryContext (Some "2")) eq_refl).
Defined.

(** A rejected key on a channel with auto_ban, two retries left. *)
Lemma relay_redirect_disables_channel_witness :
  @Relay (failingRelay invalidKey) (banContext "2")
  = {| response := Some (Redirect 307 "/v1/chat/completions?retry=1");
       disabled := Some (3, "primary", "Incorrect API key provided") |}.
Proof.
  exact (@relay_redirect_disables_channel (failingRelay invalidKey)
           (banContext "2") invalidKey eq_refl eq_refl eq_refl eq_refl).
Defined.

(** Two retries left: two redirects, then the error. *)
Lemma relay_redirects_end_witness :
  @attempts (failingRelay upstreamBusy) 5 (retryContext (Some "2"))
  = [Redirect 307 "/v1/chat/completions?retry=1";
     Redirect 307 "/v1/chat/completions?retry=0";
     JSON 429
       {| Message := "upstream is busy (request id: 20240101)";
          Type_ := "upstream_error"; Param := ""; Code := "rate_limit" |}].
Proof.
  exact (@relay_redirects_end (failingRelay upstreamBusy) upstreamBusy 2
           (failingRelay_fails upstreamBusy)
           ltac:(unfold GoInt.in_int, GoInt.min_int, GoInt.max_int; lia)
           (retryContext (Some "2")) 5 eq_refl ltac:(lia)).
Defined.
